(** * The document router of the audiobook starter: a shallow embedding

    The embedded program is [src/server/api/routers/document.ts] in its
    three revisions (pages only; in-process audio generation; audio
    generation delegated to a background task).  Every procedure of the
    router is an [async] function that talks to a relational store through
    an ORM, to a PDF parsing service, to a speech service and to an object
    store.  Here a procedure is a function in a state-and-exception monad
    over a [World]; the remote services are the fields of an [Env]. *)

From Stdlib Require Import String Ascii List ZArith Lia Bool DecimalString FinFun.
From Stdlib.Strings Require Import Byte.
From Stdlib Require Import Sorted Permutation DecimalZ DecimalPos.
Import ListNotations.
Local Open Scope string_scope.
Local Open Scope Z_scope.

(** ** Thrown errors and the procedure monad *)

(** The outcome of an awaited promise: fulfilled with a value, or rejected
    with an [Error] whose [message] is kept. *)
Inductive Result (A : Type) : Type :=
| Ok (a : A)
| Err (message : string).
Arguments Ok {A} a.
Arguments Err {A} message.

(** ** Rows of the three tables

    The schema file is not part of the sources at hand; the columns are the
    ones the router reads and writes. *)

Record Document := mkDocument {
  doc_id : Z;
  doc_name : string;
  doc_createdById : string
}.

Record Page := mkPage {
  page_id : Z;
  page_documentId : Z;
  page_pageNumber : Z;
  page_content : string
}.

Record AudioFile := mkAudioFile {
  audio_id : Z;
  audio_pageId : Z;
  audio_fileName : string;
  audio_filePath : string
}.

(** The relational store: three tables in insertion order and the next value
    of each serial primary key. *)
Record Ledger := mkLedger {
  documents : list Document;
  pages : list Page;
  audioFiles : list AudioFile;
  nextDocumentId : Z;
  nextPageId : Z;
  nextAudioFileId : Z
}.

(** Everything a procedure can change: the store, the objects uploaded to
    the bucket (every completed upload, oldest first), the wall clock read by
    [Date.now()], and the requests sent to the speech service as
    (voice, text). *)
Record World := mkWorld {
  db : Ledger;
  bucket : list (string * list byte);
  clock : Z;
  synthLog : list (string * string)
}.

Definition set_db (w : World) (l : Ledger) : World :=
  mkWorld l (bucket w) (clock w) (synthLog w).

Definition M (A : Type) : Type := World -> Result A * World.

Definition ret {A} (a : A) : M A := fun w => (Ok a, w).

Definition throw {A} (message : string) : M A := fun w => (Err message, w).

(** [await]: effects made before a rejection stay made. *)
Definition bind {A B} (c : M A) (k : A -> M B) : M B :=
  fun w => match c w with
           | (Ok a, w') => k a w'
           | (Err m, w') => (Err m, w')
           end.

Notation "x <- c ;; k" := (bind c (fun x => k))
  (at level 61, c at next level, right associativity).

(** [try { body } catch (error) { handler((error as Error).message) }] *)
Definition try_catch {A} (body : M A) (handler : string -> M A) : M A :=
  fun w => match body w with
           | (Ok a, w') => (Ok a, w')
           | (Err m, w') => handler m w'
           end.

(** [await Promise.all(ps)].  Every promise of the array has been started
    before the [await] and runs to its own end whatever the others do; the
    result is the array of values, or the rejection of a promise that
    rejected (here: the first in array order).  The promises are run in
    array order, which is the order they are started in; the world returned
    is the one reached when all of them have settled.  The promises of the
    router are run to their end one after the other, which is one of the
    schedules of the event loop; in others the rows of different promises
    are inserted in another order. *)
Fixpoint promise_all {A} (ps : list (M A)) : M (list A) :=
  fun w =>
    match ps with
    | [] => (Ok [], w)
    | p :: rest =>
        let (r, w1) := p w in
        let (rs, w2) := promise_all rest w1 in
        (match r, rs with
         | Ok a, Ok l => Ok (a :: l)
         | Err m, _ => Err m
         | Ok _, Err m => Err m
         end, w2)
    end.

(** [xs.map((x, index) => f(x, index))], indices counted from [i]. *)
Fixpoint mapi_from {A B} (i : nat) (f : A -> nat -> B) (xs : list A) : list B :=
  match xs with
  | [] => []
  | x :: rest => f x i :: mapi_from (S i) f rest
  end.

Definition mapi {A B} (f : A -> nat -> B) (xs : list A) : list B :=
  mapi_from 0 f xs.

(** [`${n}`] for an integer-valued number. *)
Definition Number_toString (n : Z) : string :=
  NilZero.string_of_int (Z.to_int n).

(** [!s] on a possibly undefined string. *)
Definition falsy_string (s : option string) : bool :=
  match s with
  | None => true
  | Some "" => true
  | Some _ => false
  end.

(** ** Statements sent to the store *)

Inductive DbOp : Type :=
| OpInsertDocument (name createdById : string)
| OpInsertPage (documentId pageNumber : Z) (content : string)
| OpInsertAudioFile (pageId : Z) (fileName filePath : string)
| OpDeleteAudioFiles (pageIds : list Z)
| OpDeletePages (documentId : Z)
| OpDeleteDocument (id : Z)
| OpFindDocument (id : Z)
| OpFindPages (ids : list Z).

(** What a [delete] without [returning()] resolves to: the driver's result
    object, which carries the number of rows removed.  [JsUndefined] is
    there for the guard [if (!deleted)] to have something to test. *)
Inductive JsResult : Type :=
| JsUndefined
| JsRows (rowCount : nat).

Definition truthy (r : JsResult) : bool :=
  match r with
  | JsUndefined => false
  | JsRows _ => true
  end.

(** A fetched response: [response.ok] and the bytes of
    [response.arrayBuffer()]. *)
Record Response := mkResponse {
  resp_ok : bool;
  resp_body : list byte
}.

(** The payload of [generateAudioTask.trigger].  The task itself lives
    outside the router; what a triggered run does to the store and the
    bucket later on is not modelled. *)
Record TaskPayload := mkTaskPayload {
  task_documentId : Z;
  task_pageId : Z;
  task_voice : string;
  task_content : string
}.

(** ** The collaborators

    [db_error op l] is [Some m] when the store rejects statement [op] in
    state [l] with message [m] (lost connection, violated constraint); the
    statement then changes nothing, the sequences included (a store that
    uses up a key value on a rejected insert differs in the next key, not
    in the rows).  A statement that is not rejected does
    what it says: an insert adds one row under the next key and returns it,
    a delete removes the rows that match. *)
Record Env := mkEnv {
  ELEVENLABS_API_KEY : option string;
  AWS_S3_BUCKET : string;
  fetch : string -> Result Response;
  loadDataAsContent : list byte -> Result (list string);
  elevenlabs_generate : string -> string -> Result (list (list byte));
  upload_error : string -> list byte -> option string;
  db_error : DbOp -> Ledger -> option string;
  tick : Z;
  task_trigger : TaskPayload -> Result string;
  runs_retrieve : string -> option string
}.

(** The session put in [ctx] by [protectedProcedure]. *)
Record Ctx := mkCtx {
  session_user_id : string
}.

Record CreateInput := mkCreateInput {
  in_name : string;
  in_fileUrl : string
}.

Record GenerateInput := mkGenerateInput {
  in_documentId : Z;
  in_pageIds : list Z;
  in_voice : string
}.

Record PdfPage := mkPdfPage {
  pdf_number : Z;
  pdf_content : string
}.

Record Created := mkCreated {
  created_documentId : Z;
  created_pages : list Page
}.

(** One entry of the array returned by [generateAudioBook]:
    [{ pageId, success: true, audioFile }] or
    [{ pageId, success: false, error }]. *)
Inductive PageResult : Type :=
| Success (pageId : Z) (audioFile : option AudioFile)
| Failure (pageId : Z) (error : string).

Definition result_pageId (r : PageResult) : Z :=
  match r with
  | Success p _ => p
  | Failure p _ => p
  end.

Definition is_success (r : PageResult) : bool :=
  match r with
  | Success _ _ => true
  | Failure _ _ => false
  end.

(** The entry of the revision that hands the work to a background task:
    [{ pageId, success: true, runId }] or the same failure entry. *)
Inductive RunResult : Type :=
| Triggered (pageId : Z) (runId : string)
| NotTriggered (pageId : Z) (error : string).

Definition run_pageId (r : RunResult) : Z :=
  match r with
  | Triggered p _ => p
  | NotTriggered p _ => p
  end.

(** [inArray(column, values)] *)
Definition inArray (x : Z) (values : list Z) : bool :=
  existsb (Z.eqb x) values.

Section Router.

Variable E : Env.

(** *** The ORM calls *)

Definition db_exec {A} (op : DbOp) (run : Ledger -> A * Ledger) : M A :=
  fun w =>
    match db_error E op (db w) with
    | Some m => (Err m, w)
    | None => let (a, l') := run (db w) in (Ok a, set_db w l')
    end.

(** [db.insert(documents).values({ name, createdById }).returning()] *)
Definition insert_document (name createdById : string) : M (list Document) :=
  db_exec (OpInsertDocument name createdById)
    (fun l =>
       let d := mkDocument (nextDocumentId l) name createdById in
       ([d], mkLedger (documents l ++ [d]) (pages l) (audioFiles l)
                      (nextDocumentId l + 1) (nextPageId l) (nextAudioFileId l))).

(** [db.insert(pages).values({ documentId, pageNumber, content }).returning()] *)
Definition insert_page (documentId pageNumber : Z) (content : string)
  : M (list Page) :=
  db_exec (OpInsertPage documentId pageNumber content)
    (fun l =>
       let p := mkPage (nextPageId l) documentId pageNumber content in
       ([p], mkLedger (documents l) (pages l ++ [p]) (audioFiles l)
                      (nextDocumentId l) (nextPageId l + 1) (nextAudioFileId l))).

(** [db.insert(audioFiles).values({ pageId, fileName, filePath }).returning()] *)
Definition insert_audioFile (pageId : Z) (fileName filePath : string)
  : M (list AudioFile) :=
  db_exec (OpInsertAudioFile pageId fileName filePath)
    (fun l =>
       let a := mkAudioFile (nextAudioFileId l) pageId fileName filePath in
       ([a], mkLedger (documents l) (pages l) (audioFiles l ++ [a])
                      (nextDocumentId l) (nextPageId l) (nextAudioFileId l + 1))).

Definition count_removed {A} (keep : A -> bool) (rows : list A) : nat :=
  (length rows - length (filter keep rows))%nat.

(** [db.delete(audioFiles).where(inArray(audioFiles.pageId, pageIds))] *)
Definition delete_audioFiles (pageIds : list Z) : M JsResult :=
  db_exec (OpDeleteAudioFiles pageIds)
    (fun l =>
       let keep := fun a => negb (inArray (audio_pageId a) pageIds) in
       (JsRows (count_removed keep (audioFiles l)),
        mkLedger (documents l) (pages l) (filter keep (audioFiles l))
                 (nextDocumentId l) (nextPageId l) (nextAudioFileId l))).

(** [db.delete(pages).where(eq(pages.documentId, id))] *)
Definition delete_pages (id : Z) : M JsResult :=
  db_exec (OpDeletePages id)
    (fun l =>
       let keep := fun p => negb (page_documentId p =? id) in
       (JsRows (count_removed keep (pages l)),
        mkLedger (documents l) (filter keep (pages l)) (audioFiles l)
                 (nextDocumentId l) (nextPageId l) (nextAudioFileId l))).

(** [db.delete(documents).where(eq(documents.id, id))] *)
Definition delete_document (id : Z) : M JsResult :=
  db_exec (OpDeleteDocument id)
    (fun l =>
       let keep := fun d => negb (doc_id d =? id) in
       (JsRows (count_removed keep (documents l)),
        mkLedger (filter keep (documents l)) (pages l) (audioFiles l)
                 (nextDocumentId l) (nextPageId l) (nextAudioFileId l))).

(** [db.query.documents.findFirst({ where: eq(documents.id, id),
    with: { pages: { with: { audioFiles: true } } } })]: the document, if
    there is one, with its pages. *)
Definition findFirst_document (id : Z) : M (option (Document * list Page)) :=
  db_exec (OpFindDocument id)
    (fun l =>
       (match find (fun d => doc_id d =? id) (documents l) with
        | None => None
        | Some d =>
            Some (d, filter (fun p => page_documentId p =? doc_id d) (pages l))
        end, l)).

(** [db.query.pages.findMany({ where: inArray(pages.id, ids) })] *)
Definition findMany_pages (ids : list Z) : M (list Page) :=
  db_exec (OpFindPages ids)
    (fun l => (filter (fun p => inArray (page_id p) ids) (pages l), l)).

(** *** The services *)

(** [Date.now()]; the clock moves on by [tick E] between two readings. *)
Definition Date_now : M Z :=
  fun w => (Ok (clock w),
            mkWorld (db w) (bucket w) (clock w + tick E) (synthLog w)).

(** [elevenlabs.generate({ voice, text, model_id })] together with the
    [for await] loop that drains the stream: the chunks, or the error of the
    request or of the stream.  The request is logged. *)
Definition elevenlabs_call (voice text : string) : M (list (list byte)) :=
  fun w =>
    (elevenlabs_generate E voice text,
     mkWorld (db w) (bucket w) (clock w) (synthLog w ++ [(voice, text)])).

(** [new Upload({ ..., Key, Body }).done()] *)
Definition upload_done (key : string) (body : list byte) : M unit :=
  fun w =>
    match upload_error E key body with
    | Some m => (Err m, w)
    | None => (Ok tt,
               mkWorld (db w) (bucket w ++ [(key, body)]) (clock w) (synthLog w))
    end.

Definition lift_result {A} (r : Result A) : M A := fun w => (r, w).

(** *** [getPdfContent] *)
Definition getPdfContent (buffer : list byte) : M (list PdfPage) :=
  try_catch
    (docs <- lift_result (loadDataAsContent E buffer) ;;
     ret (mapi (fun doc index => mkPdfPage (Z.of_nat index + 1) doc) docs))
    (fun m => throw ("Failed to process PDF document: " ++ m)).

(** *** [generateAudio] *)
Definition generateAudio (text voice : string) : M (list byte) :=
  try_catch
    (chunks <- elevenlabs_call voice text ;;
     ret (concat chunks))
    (fun m => throw ("Failed to generate audio: " ++ m)).

(** *** [saveAudioFile] *)
Definition saveAudioFile (audioBuffer : list byte) (fileName : string)
  : M string :=
  try_catch
    (_ <- upload_done ("audio/" ++ fileName) audioBuffer ;;
     ret ("https://fly.storage.tigris.dev/" ++ AWS_S3_BUCKET E
            ++ "/audio/" ++ fileName))
    (fun m => throw ("Failed to upload audio file: " ++ m)).

(** *** [create] *)

(** The callback of [pdfPages.map] in [create]. *)
Definition save_page (doc : Document) (page : PdfPage) (index : nat) : M Page :=
  try_catch
    (rows <- insert_page (doc_id doc) (pdf_number page) (pdf_content page) ;;
     match hd_error rows with
     | None => throw "Failed to save page"
     | Some savedPage => ret savedPage
     end)
    (fun m => throw ("Failed to process page "
                       ++ Number_toString (Z.of_nat index + 1) ++ ": " ++ m)).

Definition create (ctx : Ctx) (input : CreateInput) : M Created :=
  if falsy_string (ELEVENLABS_API_KEY E)
  then throw "ElevenLabs API key is not configured"
  else
    try_catch
      (response <- lift_result (fetch E (in_fileUrl input)) ;;
       if negb (resp_ok response) then throw "Failed to fetch PDF file"
       else
         pdfPages <- getPdfContent (resp_body response) ;;
         rows <- insert_document (in_name input) (session_user_id ctx) ;;
         match hd_error rows with
         | None => throw "Failed to create document"
         | Some doc =>
             documentPages <- promise_all (mapi (save_page doc) pdfPages) ;;
             ret (mkCreated (doc_id doc) documentPages)
         end)
      (fun m => throw ("Failed to create document: " ++ m)).

(** *** [delete] *)

Definition hasPermission : bool := true.

(** The revision with audio files. *)
Definition delete (ctx : Ctx) (id : Z) : M JsResult :=
  try_catch
    (if negb hasPermission
     then throw "You do not have permission to delete this document."
     else
       documentResult <- findFirst_document id ;;
       let associatedPagesId :=
         match documentResult with
         | Some (_, ps) => map page_id ps
         | None => []
         end in
       _ <- (if (0 <? length associatedPagesId)%nat
             then
               deletedAudioFiles <- delete_audioFiles associatedPagesId ;;
               if negb (truthy deletedAudioFiles)
               then throw
                 "Failed to delete audio files associated with the document."
               else ret tt
             else ret tt) ;;
       deletedPages <- delete_pages id ;;
       if negb (truthy deletedPages)
       then throw "Failed to delete pages associated with the document."
       else
         deletedDocument <- delete_document id ;;
         if negb (truthy deletedDocument)
         then throw "Failed to delete document."
         else ret deletedDocument)
    (fun m => throw ("Failed to delete document: " ++ m)).

(** The first revision, before audio files existed. *)
Definition delete_pages_only (ctx : Ctx) (id : Z) : M JsResult :=
  try_catch
    (if negb hasPermission
     then throw "You do not have permission to delete this document."
     else
       deletedPages <- delete_pages id ;;
       if negb (truthy deletedPages)
       then throw "Failed to delete pages associated with the document."
       else
         deletedDocument <- delete_document id ;;
         if negb (truthy deletedDocument)
         then throw "Failed to delete document."
         else ret deletedDocument)
    (fun m => throw ("Failed to delete document: " ++ m)).

(** *** [generateAudioBook] *)

(** The callback of [pagesToRegenerate.map], in-process revision. *)
Definition regenerate_page (input : GenerateInput) (page : Page)
  : M PageResult :=
  try_catch
    (audioBuffer <- generateAudio (page_content page) (in_voice input) ;;
     now <- Date_now ;;
     let fileName :=
       Number_toString (page_documentId page) ++ "-"
         ++ Number_toString (page_pageNumber page) ++ "-"
         ++ Number_toString now ++ ".mp3" in
     audioPath <- saveAudioFile audioBuffer fileName ;;
     rows <- insert_audioFile (page_id page) fileName audioPath ;;
     ret (Success (page_id page) (hd_error rows)))
    (fun m => ret (Failure (page_id page) m)).

Definition generateAudioBook (ctx : Ctx) (input : GenerateInput)
  : M (list PageResult) :=
  if falsy_string (ELEVENLABS_API_KEY E)
  then throw "ElevenLabs API key is not configured"
  else
    pagesToRegenerate <- findMany_pages (in_pageIds input) ;;
    results <- promise_all (map (regenerate_page input) pagesToRegenerate) ;;
    ret results.

(** The callback of the revision that triggers a background task per page. *)
Definition trigger_page (input : GenerateInput) (page : Page) : M RunResult :=
  try_catch
    (runId <- lift_result
                (task_trigger E
                   (mkTaskPayload (in_documentId input) (page_id page)
                      (in_voice input) (page_content page))) ;;
     _ <- (match runs_retrieve E runId with
           | Some m => throw m
           | None => ret tt
           end) ;;
     ret (Triggered (page_id page) runId))
    (fun m => ret (NotTriggered (page_id page) m)).

Definition generateAudioBook_task (ctx : Ctx) (input : GenerateInput)
  : M (list RunResult) :=
  if falsy_string (ELEVENLABS_API_KEY E)
  then throw "ElevenLabs API key is not configured"
  else
    pagesToRegenerate <- findMany_pages (in_pageIds input) ;;
    results <- promise_all (map (trigger_page input) pagesToRegenerate) ;;
    ret results.

End Router.

(** ** Concrete collaborators, used to run the procedures *)

Definition no_db_error : DbOp -> Ledger -> option string := fun _ _ => None.

Definition pdf_bytes : list byte := [x25; x50; x44; x46].

Definition speech : list (list byte) := [[x49; x44]; [x33]].

(** A deployment in which every service answers: the fetched file has three
    pages. *)
Definition quiet_env : Env :=
  mkEnv (Some "sk_test") "audiobooks"
    (fun _ => Ok (mkResponse true pdf_bytes))
    (fun _ => Ok ["one"; "two"; "three"])
    (fun _ _ => Ok speech)
    (fun _ _ => None)
    no_db_error
    1
    (fun p => Ok ("run_" ++ Number_toString (task_pageId p)))
    (fun _ => None).

Definition with_db_error (e : Env) (f : DbOp -> Ledger -> option string) : Env :=
  mkEnv (ELEVENLABS_API_KEY e) (AWS_S3_BUCKET e) (fetch e)
    (loadDataAsContent e) (elevenlabs_generate e) (upload_error e) f
    (tick e) (task_trigger e) (runs_retrieve e).

Definition with_parser (e : Env) (f : list byte -> Result (list string)) : Env :=
  mkEnv (ELEVENLABS_API_KEY e) (AWS_S3_BUCKET e) (fetch e)
    f (elevenlabs_generate e) (upload_error e) (db_error e)
    (tick e) (task_trigger e) (runs_retrieve e).

Definition with_speech (e : Env)
  (f : string -> string -> Result (list (list byte))) : Env :=
  mkEnv (ELEVENLABS_API_KEY e) (AWS_S3_BUCKET e) (fetch e)
    (loadDataAsContent e) f (upload_error e) (db_error e)
    (tick e) (task_trigger e) (runs_retrieve e).

Definition empty_ledger : Ledger := mkLedger [] [] [] 1 1 1.

Definition empty_world : World := mkWorld empty_ledger [] 1700000000000 [].

Definition alice : Ctx := mkCtx "alice".
Definition bob : Ctx := mkCtx "bob".

Definition report : CreateInput :=
  mkCreateInput "Report" "https://files.example/report.pdf".


(** The parser answers with no page at all. *)
Definition blank_parser : list byte -> Result (list string) := fun _ => Ok [].

(** The speech service fails on the text "two". *)
Definition mute_on_two : string -> string -> Result (list (list byte)) :=
  fun _ text => if String.eqb text "two" then Err "quota exceeded" else Ok speech.

(** The speech service answers an empty text with an empty stream. *)
Definition silent_speech : string -> string -> Result (list (list byte)) :=
  fun _ text => if String.eqb text "" then Ok [] else Ok speech.

(** The world after Alice uploaded the three-page report. *)
Definition report_world : World :=
  snd (create quiet_env alice report empty_world).

(** The world after Alice uploaded a file whose second page has no text. *)
Definition blank_page_world : World :=
  snd (create (with_parser quiet_env (fun _ => Ok ["one"; ""]))
         alice report empty_world).

(** The world after all three pages of the report have been narrated. *)
Definition narrated_world : World :=
  snd (generateAudioBook quiet_env alice
         (mkGenerateInput 1 [1; 2; 3] "narrator") report_world).

(** ** Claim-side vocabulary *)

(** The pages of a world's store that belong to document [d]. *)
Definition pages_of (d : Z) (w : World) : list Page :=
  filter (fun p => page_documentId p =? d) (pages (db w)).

(** Serial keys and the foreign key of [pages]: no page row refers to a
    document id that has not been handed out yet. *)
Definition pages_refer_to_issued_documents (w : World) : Prop :=
  Forall (fun p => page_documentId p < nextDocumentId (db w)) (pages (db w)).

(** [w'] differs from [w] by the page rows [ps], appended. *)
Definition only_pages_added (w w' : World) (ps : list Page) : Prop :=
  documents (db w') = documents (db w) /\
  pages (db w') = (pages (db w) ++ ps)%list /\
  audioFiles (db w') = audioFiles (db w) /\
  nextDocumentId (db w') = nextDocumentId (db w) /\
  bucket w' = bucket w /\
  synthLog w' = synthLog w.

(** The document row [create] inserts, and the world right after. *)
Definition new_document (ctx : Ctx) (input : CreateInput) (w : World) : Document :=
  mkDocument (nextDocumentId (db w)) (in_name input) (session_user_id ctx).

Definition document_inserted (ctx : Ctx) (input : CreateInput) (w : World)
  : World :=
  mkWorld
    (mkLedger (documents (db w) ++ [new_document ctx input w]) (pages (db w))
       (audioFiles (db w)) (nextDocumentId (db w) + 1) (nextPageId (db w))
       (nextAudioFileId (db w)))
    (bucket w) (clock w) (synthLog w).

Definition extracted (docs : list string) : list PdfPage :=
  mapi (fun doc index => mkPdfPage (Z.of_nat index + 1) doc) docs.

(** The name [regenerate_page] gives the audio of [page] at time [now]. *)
Definition audio_fileName_at (page : Page) (now : Z) : string :=
  Number_toString (page_documentId page) ++ "-"
    ++ Number_toString (page_pageNumber page) ++ "-"
    ++ Number_toString now ++ ".mp3".

Definition audio_url (E : Env) (fileName : string) : string :=
  "https://fly.storage.tigris.dev/" ++ AWS_S3_BUCKET E ++ "/audio/" ++ fileName.

(** The world after the speech service has been asked for [text]. *)
Definition asked (w : World) (voice text : string) : World :=
  mkWorld (db w) (bucket w) (clock w) (synthLog w ++ [(voice, text)]).

(** The rows [findMany] selects for a list of requested ids. *)
Definition pages_found (ids : list Z) (w : World) : list Page :=
  filter (fun p => inArray (page_id p) ids) (pages (db w)).

(** The audio rows carried by the success entries of a result list. *)
Definition recorded (rs : list PageResult) : list AudioFile :=
  flat_map (fun r => match r with
                     | Success _ (Some a) => [a]
                     | _ => []
                     end) rs.

(** A success entry carries the audio row of its own page. *)
Definition entry_consistent (r : PageResult) : Prop :=
  match r with
  | Success pid oa => exists a, oa = Some a /\ audio_pageId a = pid
  | Failure _ _ => True
  end.

(** What a batch of page jobs may do to a world: append audio rows and
    uploads, move the clock, extend the request log; nothing else. *)
Record batch_effect (w w' : World) (rs : list PageResult) : Prop := {
  be_documents : documents (db w') = documents (db w);
  be_pages : pages (db w') = pages (db w);
  be_audioFiles : audioFiles (db w') = (audioFiles (db w) ++ recorded rs)%list;
  be_bucket : exists bs, bucket w' = (bucket w ++ bs)%list /\
                forall a, In a (recorded rs) ->
                  exists body, In (("audio/" ++ audio_fileName a)%string, body) bs;
  be_entries : Forall entry_consistent rs
}.

(** The page ids a result stands for, through success and failure alike. *)
Definition answered {A} (pageId : A -> Z) (r : Result (list A)) : Result (list Z) :=
  match r with
  | Ok rs => Ok (map pageId rs)
  | Err m => Err m
  end.

(** The requests a batch over [ps] sends to the speech service. *)
Definition requests (input : GenerateInput) (ps : list Page)
  : list (string * string) :=
  map (fun p => (in_voice input, page_content p)) ps.

(** Texts made of blanks only (space, tab, line feed, vertical tab, form
    feed, carriage return), the empty text among them. *)
Definition is_blank_char (c : ascii) : bool :=
  match c with
  | " "%char | "009"%char | "010"%char | "011"%char | "012"%char | "013"%char =>
      true
  | _ => false
  end.

Fixpoint whitespace_only (s : string) : bool :=
  match s with
  | EmptyString => true
  | String c rest => is_blank_char c && whitespace_only rest
  end.

(** The ids [delete] collects from the document it looked up. *)
Definition associatedPagesId (id : Z) (l : Ledger) : list Z :=
  match find (fun d => doc_id d =? id) (documents l) with
  | Some d => map page_id (filter (fun p => page_documentId p =? doc_id d) (pages l))
  | None => []
  end.

(** The store [delete] leaves when no statement is rejected. *)
Definition after_delete (id : Z) (l : Ledger) : Ledger :=
  mkLedger
    (filter (fun d => negb (doc_id d =? id)) (documents l))
    (filter (fun p => negb (page_documentId p =? id)) (pages l))
    (if (0 <? length (associatedPagesId id l))%nat
     then filter (fun a => negb (inArray (audio_pageId a) (associatedPagesId id l)))
            (audioFiles l)
     else audioFiles l)
    (nextDocumentId l) (nextPageId l) (nextAudioFileId l).

(** ** Listing documents *)

(** A page as [getAll] returns it, with its audio files. *)
Record PageWithAudio := mkPageWithAudio {
  pwa_page : Page;
  pwa_audioFiles : list AudioFile
}.

(** A document as [getAll] returns it, with its pages. *)
Record DocumentWithPages := mkDocumentWithPages {
  dwp_document : Document;
  dwp_pages : list PageWithAudio
}.

Section Listing.

(** The column [documents.createdAt], which the rows above do not carry. *)
Variable createdAt : Document -> Z.

(** The rejection, if any, of the query of [getAll] made for a user. *)
Variable list_error : string -> Ledger -> option string.

(** [with: { pages: { with: { audioFiles: true } } }] *)
Definition with_audioFiles (l : Ledger) (p : Page) : PageWithAudio :=
  mkPageWithAudio p
    (filter (fun a => audio_pageId a =? page_id p) (audioFiles l)).

Definition with_pages (l : Ledger) (d : Document) : DocumentWithPages :=
  mkDocumentWithPages d
    (map (with_audioFiles l)
       (filter (fun p => page_documentId p =? doc_id d) (pages l))).

(** [orderBy: (documents, { desc }) => [desc(documents.createdAt)]]; rows of
    equal [createdAt] stay in table order. *)
Fixpoint insert_desc (d : Document) (ds : list Document) : list Document :=
  match ds with
  | [] => [d]
  | x :: rest =>
      if createdAt x <=? createdAt d then d :: x :: rest
      else x :: insert_desc d rest
  end.

Definition orderBy_createdAt_desc (ds : list Document) : list Document :=
  fold_right insert_desc [] ds.

(** [where: eq(documents.createdById, ctx.session.user.id)] *)
Definition created_by (user : string) (l : Ledger) : list Document :=
  filter (fun d => String.eqb (doc_createdById d) user) (documents l).

(** [getAll], revisions with audio files. *)
Definition getAll (ctx : Ctx) : M (list DocumentWithPages) :=
  fun w =>
    match list_error (session_user_id ctx) (db w) with
    | Some m => (Err m, w)
    | None =>
        (Ok (map (with_pages (db w))
               (orderBy_createdAt_desc
                  (created_by (session_user_id ctx) (db w)))), w)
    end.

(** [getAll], first revision: [with: { pages: true }]. *)
Definition getAll_pages_only (ctx : Ctx) : M (list (Document * list Page)) :=
  fun w =>
    match list_error (session_user_id ctx) (db w) with
    | Some m => (Err m, w)
    | None =>
        (Ok (map (fun d =>
                    (d, filter (fun p => page_documentId p =? doc_id d)
                          (pages (db w))))
               (orderBy_createdAt_desc
                  (created_by (session_user_id ctx) (db w)))), w)
    end.

End Listing.

(** ** Well-formed stores *)

(** Serial primary keys: every key in a table is below the next value of its
    sequence, and no key occurs twice. *)
Definition keys_fresh (l : Ledger) : Prop :=
  Forall (fun d => doc_id d < nextDocumentId l) (documents l) /\
  Forall (fun p => page_id p < nextPageId l) (pages l) /\
  Forall (fun a => audio_id a < nextAudioFileId l) (audioFiles l) /\
  NoDup (map doc_id (documents l)) /\
  NoDup (map page_id (pages l)) /\
  NoDup (map audio_id (audioFiles l)).

(** Foreign keys: every page belongs to a document of the store and every
    audio file to a page of the store. *)
Definition refs_ok (l : Ledger) : Prop :=
  Forall (fun p => In (page_documentId p) (map doc_id (documents l))) (pages l) /\
  Forall (fun a => In (audio_pageId a) (map page_id (pages l))) (audioFiles l).

(** [c] keeps the property [P] of the store, whether it returns or throws. *)
Definition preserves {A} (P : Ledger -> Prop) (c : M A) : Prop :=
  forall w, P (db w) -> P (db (snd (c w))).

(** [c] does not write to the store. *)
Definition read_only {A} (c : M A) : Prop :=
  forall w, db (snd (c w)) = db w.

(** The store after the audio files of the pages [ids] have been deleted. *)
Definition audio_deleted (ids : list Z) (l : Ledger) : Ledger :=
  mkLedger (documents l) (pages l)
    (filter (fun a => negb (inArray (audio_pageId a) ids)) (audioFiles l))
    (nextDocumentId l) (nextPageId l) (nextAudioFileId l).

(** The store after the pages of document [id] have been deleted. *)
Definition pages_deleted (id : Z) (l : Ledger) : Ledger :=
  mkLedger (documents l)
    (filter (fun p => negb (page_documentId p =? id)) (pages l))
    (audioFiles l) (nextDocumentId l) (nextPageId l) (nextAudioFileId l).

(** The store after the document row [id] has been deleted. *)
Definition document_deleted (id : Z) (l : Ledger) : Ledger :=
  mkLedger (filter (fun d => negb (doc_id d =? id)) (documents l))
    (pages l) (audioFiles l)
    (nextDocumentId l) (nextPageId l) (nextAudioFileId l).

(** The first step of [delete]: audio files go only when the document was
    found with at least one page. *)
Definition audio_step (id : Z) (l : Ledger) : Ledger :=
  if (0 <? length (associatedPagesId id l))%nat
  then audio_deleted (associatedPagesId id l) l
  else l.

Definition with_db (w : World) (l : Ledger) : World :=
  mkWorld l (bucket w) (clock w) (synthLog w).

(** The store deletes everything it is asked to except document rows. *)
Definition documents_locked : DbOp -> Ledger -> option string :=
  fun op _ =>
    match op with
    | OpDeleteDocument _ => Some "permission denied for table documents"
    | _ => None
    end.

(** The bucket refuses every upload. *)
Definition with_upload_error (e : Env) (f : string -> list byte -> option string)
  : Env :=
  mkEnv (ELEVENLABS_API_KEY e) (AWS_S3_BUCKET e) (fetch e)
    (loadDataAsContent e) (elevenlabs_generate e) f (db_error e)
    (tick e) (task_trigger e) (runs_retrieve e).

Definition without_key (e : Env) : Env :=
  mkEnv None (AWS_S3_BUCKET e) (fetch e)
    (loadDataAsContent e) (elevenlabs_generate e) (upload_error e) (db_error e)
    (tick e) (task_trigger e) (runs_retrieve e).


(** What an entry of the task revision says about [page]. *)
Definition trigger_report (E : Env) (input : GenerateInput)
           (page : Page) (r : RunResult) : Prop :=
  let payload := mkTaskPayload (in_documentId input) (page_id page)
                   (in_voice input) (page_content page) in
  match r with
  | Triggered pid runId =>
      pid = page_id page /\
      task_trigger E payload = Ok runId /\ runs_retrieve E runId = None
  | NotTriggered pid m =>
      pid = page_id page /\
      (task_trigger E payload = Err m \/
       exists runId, task_trigger E payload = Ok runId /\
                     runs_retrieve E runId = Some m)
  end.

(** Newest first. *)
Definition newer_or_same (createdAt : Document -> Z) (a b : Document) : Prop :=
  createdAt b <= createdAt a.

(** ** Running the monad *)

Ltac run_monad :=
  unfold bind, ret, throw, try_catch, lift_result, db_exec, set_db in *;
  cbn [fst snd] in *.

Section Facts.

Variable E : Env.

Lemma getPdfContent_run (buffer : list byte) (w : World) :
  getPdfContent E buffer w =
  match loadDataAsContent E buffer with
  | Ok docs =>
      (Ok (mapi (fun doc index => mkPdfPage (Z.of_nat index + 1) doc) docs), w)
  | Err m => (Err ("Failed to process PDF document: " ++ m), w)
  end.
Proof.
  unfold getPdfContent. run_monad.
  destruct (loadDataAsContent E buffer); reflexivity.
Qed.

Lemma pdf_numbers_from (i : nat) (docs : list string) :
  map pdf_number
    (mapi_from i (fun doc index => mkPdfPage (Z.of_nat index + 1) doc) docs)
  = map Z.of_nat (seq (S i) (length docs)).
Proof.
  revert i. induction docs as [|d docs IH]; intros i; cbn [mapi_from map length seq].
  - reflexivity.
  - rewrite IH. cbn [pdf_number]. f_equal. lia.
Qed.

Lemma save_page_run (doc : Document) (page : PdfPage) (index : nat) (w : World) :
  save_page E doc page index w =
  match db_error E
          (OpInsertPage (doc_id doc) (pdf_number page) (pdf_content page))
          (db w) with
  | Some m =>
      (Err ("Failed to process page "
              ++ Number_toString (Z.of_nat index + 1) ++ ": " ++ m), w)
  | None =>
      let p := mkPage (nextPageId (db w)) (doc_id doc)
                      (pdf_number page) (pdf_content page) in
      (Ok p,
       mkWorld
         (mkLedger (documents (db w)) (pages (db w) ++ [p]) (audioFiles (db w))
            (nextDocumentId (db w)) (nextPageId (db w) + 1)
            (nextAudioFileId (db w)))
         (bucket w) (clock w) (synthLog w))
  end.
Proof.
  unfold save_page, insert_page. run_monad.
  destruct (db_error E _ (db w)); reflexivity.
Qed.

(** What the fan-out of page inserts leaves behind, whether or not one of
    them is rejected. *)
Lemma save_pages_run (doc : Document) (pdfPages : list PdfPage) :
  forall (i : nat) (w : World) (r : Result (list Page)) (w' : World),
    promise_all (mapi_from i (save_page E doc) pdfPages) w = (r, w') ->
    exists ps : list Page,
      only_pages_added w w' ps /\
      Forall (fun p => page_documentId p = doc_id doc) ps /\
      (forall l, r = Ok l ->
         l = ps /\ map page_pageNumber l = map pdf_number pdfPages) /\
      (forall m, r = Err m -> (length ps < length pdfPages)%nat) /\
      (length ps <= length pdfPages)%nat.
Proof.
  induction pdfPages as [|page rest IH]; intros i w r w' Hrun.
  - cbn in Hrun. inversion Hrun; subst. exists [].
    unfold only_pages_added. rewrite app_nil_r.
    split; [repeat split; reflexivity|].
    split; [constructor|].
    split; [intros l Hl; inversion Hl; split; reflexivity|].
    split; [discriminate | cbn; lia].
  - cbn [mapi_from promise_all] in Hrun.
    rewrite save_page_run in Hrun.
    destruct (db_error E _ (db w)) as [m|] eqn:Hfault.
    + destruct (promise_all (mapi_from (S i) (save_page E doc) rest) w)
        as [rs w2] eqn:Hrest.
      inversion Hrun; subst; clear Hrun.
      destruct (IH _ _ _ _ Hrest) as (ps & Hadd & Hdoc & _ & _ & Hlen).
      exists ps. repeat split; try apply Hadd; auto; try discriminate.
      * intros _ _. cbn [length]. lia.
      * cbn [length]. lia.
    + cbv beta iota zeta in Hrun.
      destruct (promise_all (mapi_from (S i) (save_page E doc) rest) _)
        as [rs w2] eqn:Hrest.
      inversion Hrun; subst; clear Hrun.
      destruct (IH _ _ _ _ Hrest) as (ps & Hadd & Hdoc & Hok & Herr & Hlen).
      destruct Hadd as (Hd & Hp & Ha & Hn & Hb & Hs). cbn in Hd, Hp, Ha, Hn, Hb, Hs.
      exists (mkPage (nextPageId (db w)) (doc_id doc)
                (pdf_number page) (pdf_content page) :: ps).
      split; [|split; [|split; [|split]]].
      * unfold only_pages_added. rewrite Hp, <- app_assoc. cbn [app].
        repeat split; assumption.
      * constructor; [reflexivity | assumption].
      * intros l Hl. destruct rs as [l0|m0]; [|discriminate].
        inversion Hl; subst l; clear Hl.
        destruct (Hok l0 eq_refl) as [-> Hnum].
        split; [reflexivity|]. cbn [map]. now rewrite Hnum.
      * intros m Hm. destruct rs as [l0|m0]; [discriminate|].
        specialize (Herr m0 eq_refl). cbn [length]. lia.
      * cbn [length]. lia.
Qed.

Lemma save_pages_ok :
  (forall op l, db_error E op l = None) ->
  forall (doc : Document) (pdfPages : list PdfPage) (i : nat) (w : World)
         (r : Result (list Page)) (w' : World),
    promise_all (mapi_from i (save_page E doc) pdfPages) w = (r, w') ->
    exists l, r = Ok l.
Proof.
  intros Hquiet doc pdfPages.
  induction pdfPages as [|page rest IH]; intros i w r w' Hrun.
  - cbn in Hrun. inversion Hrun. eauto.
  - cbn [mapi_from promise_all] in Hrun.
    rewrite save_page_run, Hquiet in Hrun. cbv beta iota zeta in Hrun.
    destruct (promise_all (mapi_from (S i) (save_page E doc) rest) _)
      as [rs w2] eqn:Hrest.
    destruct (IH _ _ _ _ Hrest) as [l ->].
    inversion Hrun. eauto.
Qed.

(** [create] either stops before it has written anything, or inserts the
    document row and fans out the page inserts. *)
Lemma create_inv (ctx : Ctx) (input : CreateInput) (w : World)
      (r : Result Created) (w' : World) :
  create E ctx input w = (r, w') ->
  ((exists m, r = Err m) /\ w' = w /\
   (falsy_string (ELEVENLABS_API_KEY E) = true \/
    (exists m, fetch E (in_fileUrl input) = Err m) \/
    (exists response, fetch E (in_fileUrl input) = Ok response /\
       (resp_ok response = false \/
        (exists m, loadDataAsContent E (resp_body response) = Err m) \/
        (exists m, db_error E
                     (OpInsertDocument (in_name input) (session_user_id ctx))
                     (db w) = Some m)))))
  \/
  (exists response docs rp,
     falsy_string (ELEVENLABS_API_KEY E) = false /\
     fetch E (in_fileUrl input) = Ok response /\
     resp_ok response = true /\
     loadDataAsContent E (resp_body response) = Ok docs /\
     db_error E (OpInsertDocument (in_name input) (session_user_id ctx))
       (db w) = None /\
     promise_all (mapi (save_page E (new_document ctx input w)) (extracted docs))
       (document_inserted ctx input w) = (rp, w') /\
     r = match rp with
         | Ok l => Ok (mkCreated (doc_id (new_document ctx input w)) l)
         | Err m => Err ("Failed to create document: " ++ m)
         end).
Proof.
  unfold create. intros Hrun.
  destruct (falsy_string (ELEVENLABS_API_KEY E)) eqn:Hkey.
  { left. inversion Hrun; subst. eauto 6. }
  unfold try_catch, bind at 1, lift_result in Hrun.
  destruct (fetch E (in_fileUrl input)) as [response|m] eqn:Hfetch.
  2:{ left. inversion Hrun; subst. eauto 8. }
  destruct (resp_ok response) eqn:Hok; cbn [negb] in Hrun.
  2:{ left. inversion Hrun; subst. split; [eauto|]. split; [reflexivity|].
      right; right. exists response. auto. }
  unfold bind at 1 in Hrun. rewrite getPdfContent_run in Hrun.
  destruct (loadDataAsContent E (resp_body response)) as [docs|m] eqn:Hparse.
  2:{ left. inversion Hrun; subst. split; [eauto|]. split; [reflexivity|].
      right; right. exists response. eauto 6. }
  unfold bind at 1, insert_document, db_exec in Hrun.
  destruct (db_error E (OpInsertDocument (in_name input) (session_user_id ctx))
              (db w)) as [m|] eqn:Hins.
  { left. inversion Hrun; subst. split; [eauto|]. split; [reflexivity|].
    right; right. exists response. eauto 6. }
  cbn [hd_error] in Hrun. unfold bind, ret, set_db in Hrun.
  fold (new_document ctx input w) in Hrun.
  fold (extracted docs) in Hrun.
  fold (document_inserted ctx input w) in Hrun.
  destruct (promise_all _ _) as [rp w2] eqn:Hpages in Hrun.
  right. exists response, docs, rp.
  assert (w2 = w') as -> by (destruct rp; now inversion Hrun).
  repeat (split; [assumption|]).
  destruct rp; now inversion Hrun.
Qed.

Lemma filter_none {A} (f : A -> bool) (l : list A) :
  Forall (fun x => f x = false) l -> filter f l = [].
Proof.
  induction 1 as [|x l Hx _ IH]; cbn [filter]; [reflexivity|].
  now rewrite Hx.
Qed.

Lemma filter_all {A} (f : A -> bool) (l : list A) :
  Forall (fun x => f x = true) l -> filter f l = l.
Proof.
  induction 1 as [|x l Hx _ IH]; cbn [filter]; [reflexivity|].
  now rewrite Hx, IH.
Qed.

(** *** One page job *)

Lemma generateAudio_run (text voice : string) (w : World) :
  generateAudio E text voice w =
  (match elevenlabs_generate E voice text with
   | Ok chunks => Ok (concat chunks)
   | Err m => Err ("Failed to generate audio: " ++ m)
   end, asked w voice text).
Proof.
  unfold generateAudio, elevenlabs_call, asked. run_monad.
  destruct (elevenlabs_generate E voice text); reflexivity.
Qed.

Lemma saveAudioFile_run (audioBuffer : list byte) (fileName : string) (w : World) :
  saveAudioFile E audioBuffer fileName w =
  match upload_error E ("audio/" ++ fileName) audioBuffer with
  | Some m => (Err ("Failed to upload audio file: " ++ m), w)
  | None =>
      (Ok (audio_url E fileName),
       mkWorld (db w) (bucket w ++ [("audio/" ++ fileName, audioBuffer)])
         (clock w) (synthLog w))
  end.
Proof.
  unfold saveAudioFile, upload_done, audio_url. run_monad.
  destruct (upload_error E _ audioBuffer); reflexivity.
Qed.

(** The three steps of a page job, one after the other; each can end it. *)
Lemma regenerate_page_run (input : GenerateInput) (page : Page) (w : World) :
  regenerate_page E input page w =
  let voice := in_voice input in
  let text := page_content page in
  let fileName := audio_fileName_at page (clock w) in
  let log := (synthLog w ++ [(voice, text)])%list in
  match elevenlabs_generate E voice text with
  | Err m =>
      (Ok (Failure (page_id page) ("Failed to generate audio: " ++ m)),
       mkWorld (db w) (bucket w) (clock w) log)
  | Ok chunks =>
      match upload_error E ("audio/" ++ fileName) (concat chunks) with
      | Some m =>
          (Ok (Failure (page_id page) ("Failed to upload audio file: " ++ m)),
           mkWorld (db w) (bucket w) (clock w + tick E) log)
      | None =>
          let stored :=
            (bucket w ++ [(("audio/" ++ fileName)%string, concat chunks)])%list in
          match db_error E
                  (OpInsertAudioFile (page_id page) fileName
                     (audio_url E fileName)) (db w) with
          | Some m =>
              (Ok (Failure (page_id page) m),
               mkWorld (db w) stored (clock w + tick E) log)
          | None =>
              let a := mkAudioFile (nextAudioFileId (db w)) (page_id page)
                         fileName (audio_url E fileName) in
              (Ok (Success (page_id page) (Some a)),
               mkWorld
                 (mkLedger (documents (db w)) (pages (db w))
                    (audioFiles (db w) ++ [a]) (nextDocumentId (db w))
                    (nextPageId (db w)) (nextAudioFileId (db w) + 1))
                 stored (clock w + tick E) log)
          end
      end
  end.
Proof.
  unfold regenerate_page.
  unfold try_catch, bind at 1. rewrite generateAudio_run.
  destruct (elevenlabs_generate E (in_voice input) (page_content page))
    as [chunks|m]; [|reflexivity].
  unfold bind at 1, Date_now, asked. cbn [db bucket clock synthLog].
  unfold bind at 1. rewrite saveAudioFile_run. cbn [db bucket clock synthLog].
  fold (audio_fileName_at page (clock w)).
  destruct (upload_error E _ (concat chunks)) as [m|]; [reflexivity|].
  unfold bind, insert_audioFile, db_exec, ret, set_db.
  cbn [db bucket clock synthLog].
  destruct (db_error E _ (db w)) as [m|]; reflexivity.
Qed.

Lemma world_eta (w : World) :
  mkWorld (db w) (bucket w) (clock w) (synthLog w) = w.
Proof. destruct w; reflexivity. Qed.

Lemma regenerate_page_effect (input : GenerateInput) (page : Page) (w : World) :
  exists r w',
    regenerate_page E input page w = (Ok r, w') /\
    result_pageId r = page_id page /\
    batch_effect w w' [r].
Proof.
  rewrite regenerate_page_run. cbv zeta.
  destruct (elevenlabs_generate E _ _) as [chunks|m];
    [destruct (upload_error E _ _) as [m|];
       [|destruct (db_error E _ (db w)) as [m|]]|];
    (eexists; eexists; split; [reflexivity|]; split; [reflexivity|]);
    (constructor;
     cbn [db bucket documents pages audioFiles recorded flat_map app];
     rewrite ?app_nil_r; try reflexivity).
  - exists []. rewrite app_nil_r. split; [reflexivity|]. intros a [].
  - repeat constructor.
  - eexists. split; [reflexivity|]. intros a [].
  - repeat constructor.
  - eexists. split; [reflexivity|].
    intros a [<-|[]]. cbn [audio_fileName]. eexists. left. reflexivity.
  - constructor; [|constructor]. cbn [entry_consistent]. eauto.
  - exists []. rewrite app_nil_r. split; [reflexivity|]. intros a [].
  - repeat constructor.
Qed.

Lemma batch_effect_nil (w : World) : batch_effect w w [].
Proof.
  constructor; cbn [recorded flat_map]; rewrite ?app_nil_r; try reflexivity.
  - exists []. rewrite app_nil_r. split; [reflexivity|]. intros a [].
  - constructor.
Qed.

Lemma batch_effect_cons (w w1 w2 : World) (r : PageResult) (rs : list PageResult) :
  batch_effect w w1 [r] -> batch_effect w1 w2 rs -> batch_effect w w2 (r :: rs).
Proof.
  intros [Hd1 Hp1 Ha1 (bs1 & Hb1 & Hin1) He1] [Hd2 Hp2 Ha2 (bs2 & Hb2 & Hin2) He2].
  assert (Hrec : recorded (r :: rs) = (recorded [r] ++ recorded rs)%list).
  { unfold recorded. cbn [flat_map]. now rewrite app_nil_r. }
  constructor.
  - congruence.
  - congruence.
  - rewrite Ha2, Ha1, Hrec. now rewrite app_assoc.
  - exists (bs1 ++ bs2)%list. split.
    + rewrite Hb2, Hb1. now rewrite app_assoc.
    + intros a Ha. rewrite Hrec in Ha. apply in_app_or in Ha as [Ha|Ha].
      * destruct (Hin1 a Ha) as [body Hbody]. exists body.
        apply in_or_app. now left.
      * destruct (Hin2 a Ha) as [body Hbody]. exists body.
        apply in_or_app. now right.
  - constructor; [now inversion He1 | assumption].
Qed.

(** The fan-out of page jobs always settles with one entry per page, in the
    order of the pages. *)
Lemma regenerate_pages_run (input : GenerateInput) (ps : list Page) :
  forall w : World,
  exists rs w',
    promise_all (map (regenerate_page E input) ps) w = (Ok rs, w') /\
    map result_pageId rs = map page_id ps /\
    batch_effect w w' rs.
Proof.
  induction ps as [|page rest IH]; intros w.
  - exists [], w. split; [reflexivity|]. split; [reflexivity|].
    apply batch_effect_nil.
  - destruct (regenerate_page_effect input page w) as (r & w1 & Hr & Hid & Heff1).
    destruct (IH w1) as (rs & w2 & Hrs & Hids & Heff2).
    exists (r :: rs), w2. cbn [map promise_all].
    rewrite Hr, Hrs. split; [reflexivity|].
    split; [now rewrite Hid, Hids|].
    eapply batch_effect_cons; eassumption.
Qed.

Lemma generateAudioBook_run (ctx : Ctx) (input : GenerateInput) (w : World) :
  falsy_string (ELEVENLABS_API_KEY E) = false ->
  db_error E (OpFindPages (in_pageIds input)) (db w) = None ->
  exists rs w',
    generateAudioBook E ctx input w = (Ok rs, w') /\
    map result_pageId rs = map page_id (pages_found (in_pageIds input) w) /\
    batch_effect w w' rs.
Proof.
  intros Hkey Hfind.
  destruct (regenerate_pages_run input (pages_found (in_pageIds input) w) w)
    as (rs & w' & Hrun & Hids & Heff).
  exists rs, w'. split; [|split; assumption].
  unfold generateAudioBook. rewrite Hkey.
  unfold bind at 1, findMany_pages, db_exec. rewrite Hfind.
  unfold set_db. rewrite world_eta.
  unfold bind, ret. fold (pages_found (in_pageIds input) w). now rewrite Hrun.
Qed.

Lemma promise_all_snd {A} (p : M A) (rest : list (M A)) (w : World) :
  snd (promise_all (p :: rest) w) = snd (promise_all rest (snd (p w))).
Proof.
  cbn [promise_all]. destruct (p w) as [r w1]. cbn [snd].
  destruct (promise_all rest w1) as [rs w2]. reflexivity.
Qed.

Lemma regenerate_page_log (input : GenerateInput) (page : Page) (w : World) :
  synthLog (snd (regenerate_page E input page w))
  = (synthLog w ++ [(in_voice input, page_content page)])%list.
Proof.
  rewrite regenerate_page_run. cbv zeta.
  destruct (elevenlabs_generate E _ _) as [chunks|m]; [|reflexivity].
  destruct (upload_error E _ _) as [m|]; [reflexivity|].
  destruct (db_error E _ (db w)) as [m|]; reflexivity.
Qed.

(** Each page of the batch is sent to the speech service once, in order. *)
Lemma regenerate_pages_log (input : GenerateInput) (ps : list Page) :
  forall w : World,
    synthLog (snd (promise_all (map (regenerate_page E input) ps) w))
    = (synthLog w ++ requests input ps)%list.
Proof.
  induction ps as [|page rest IH]; intros w.
  - cbn. now rewrite app_nil_r.
  - cbn [map]. rewrite promise_all_snd, IH, regenerate_page_log.
    unfold requests. cbn [map]. now rewrite <- app_assoc.
Qed.

(** *** The revision that triggers a task per page *)

Lemma trigger_page_run (input : GenerateInput) (page : Page) (w : World) :
  exists r, trigger_page E input page w = (Ok r, w) /\
            run_pageId r = page_id page.
Proof.
  unfold trigger_page. run_monad.
  destruct (task_trigger E _) as [runId|m]; [|eauto].
  destruct (runs_retrieve E runId) as [m|]; eauto.
Qed.

Lemma trigger_pages_run (input : GenerateInput) (ps : list Page) (w : World) :
  exists rs,
    promise_all (map (trigger_page E input) ps) w = (Ok rs, w) /\
    map run_pageId rs = map page_id ps.
Proof.
  induction ps as [|page rest IH].
  - exists []. split; reflexivity.
  - destruct (trigger_page_run input page w) as (r & Hr & Hid).
    destruct IH as (rs & Hrs & Hids).
    exists (r :: rs). cbn [map promise_all]. rewrite Hr, Hrs.
    split; [reflexivity|]. now rewrite Hid, Hids.
Qed.

Lemma generateAudioBook_task_run (ctx : Ctx) (input : GenerateInput) (w : World) :
  falsy_string (ELEVENLABS_API_KEY E) = false ->
  db_error E (OpFindPages (in_pageIds input)) (db w) = None ->
  exists rs,
    generateAudioBook_task E ctx input w = (Ok rs, w) /\
    map run_pageId rs = map page_id (pages_found (in_pageIds input) w).
Proof.
  intros Hkey Hfind.
  destruct (trigger_pages_run input (pages_found (in_pageIds input) w) w)
    as (rs & Hrun & Hids).
  exists rs. split; [|assumption].
  unfold generateAudioBook_task. rewrite Hkey.
  unfold bind at 1, findMany_pages, db_exec. rewrite Hfind.
  unfold set_db. rewrite world_eta.
  unfold bind, ret. fold (pages_found (in_pageIds input) w). now rewrite Hrun.
Qed.

(** Before the page lookup has answered, neither revision has done
    anything. *)
Lemma generateAudioBook_stops_early (ctx : Ctx) (input : GenerateInput)
      (w : World) (m : string) :
  falsy_string (ELEVENLABS_API_KEY E) = false ->
  db_error E (OpFindPages (in_pageIds input)) (db w) = Some m ->
  generateAudioBook E ctx input w = (Err m, w) /\
  generateAudioBook_task E ctx input w = (Err m, w).
Proof.
  intros Hkey Hfind.
  unfold generateAudioBook, generateAudioBook_task. rewrite Hkey.
  unfold bind at 1 3, findMany_pages, db_exec. rewrite Hfind. split; reflexivity.
Qed.

Lemma inArray_In (x : Z) (values : list Z) :
  inArray x values = true <-> In x values.
Proof.
  unfold inArray. rewrite existsb_exists. split.
  - intros (y & Hy & Heq). apply Z.eqb_eq in Heq. now subst.
  - intros Hx. exists x. split; [assumption | apply Z.eqb_refl].
Qed.

Lemma pages_found_ids (ids : list Z) (w : World) (id : Z) :
  In id (map page_id (pages_found ids w)) <->
  In id ids /\ exists p, In p (pages (db w)) /\ page_id p = id.
Proof.
  unfold pages_found. rewrite in_map_iff. split.
  - intros (p & Hid & Hp). apply filter_In in Hp as [Hp Hsel].
    apply inArray_In in Hsel. subst id. eauto.
  - intros (Hid & p & Hp & Heq). exists p. split; [assumption|].
    apply filter_In. split; [assumption|]. apply inArray_In. now subst.
Qed.

(** *** Deleting *)

(** With a store that rejects nothing, [delete] goes through its three
    statements and returns the result object of the last one, whatever the
    number of rows each of them removed. *)
Lemma delete_run (ctx : Ctx) (id : Z) (w : World) :
  (forall op l, db_error E op l = None) ->
  delete E ctx id w
  = (Ok (JsRows (count_removed (fun d => negb (doc_id d =? id))
                   (documents (db w)))),
     mkWorld (after_delete id (db w)) (bucket w) (clock w) (synthLog w)).
Proof.
  intros Hquiet.
  unfold delete, hasPermission, after_delete, associatedPagesId.
  cbn [negb].
  unfold try_catch, bind, findFirst_document, delete_audioFiles, delete_pages,
    delete_document, db_exec, ret, set_db.
  rewrite !Hquiet. cbn [db bucket clock synthLog].
  destruct (find (fun d => doc_id d =? id) (documents (db w))) as [d|].
  - destruct (0 <? length _)%nat.
    + rewrite !Hquiet. cbn [truthy negb db bucket clock synthLog
        documents pages audioFiles nextDocumentId nextPageId nextAudioFileId].
      rewrite !Hquiet. cbn [truthy negb db bucket clock synthLog
        documents pages audioFiles nextDocumentId nextPageId nextAudioFileId].
      rewrite !Hquiet. reflexivity.
    + rewrite !Hquiet. cbn [truthy negb db bucket clock synthLog
        documents pages audioFiles nextDocumentId nextPageId nextAudioFileId].
      rewrite !Hquiet. destruct w as [[] ? ? ?]; reflexivity.
  - cbn [map length Nat.ltb Nat.leb].
    rewrite !Hquiet. cbn [truthy negb db bucket clock synthLog
      documents pages audioFiles nextDocumentId nextPageId nextAudioFileId].
    rewrite !Hquiet. destruct w as [[] ? ? ?]; reflexivity.
Qed.

Lemma find_document_by_id (id : Z) (l : Ledger) (d : Document) :
  In d (documents l) -> doc_id d = id ->
  exists d0, find (fun x => doc_id x =? id) (documents l) = Some d0 /\
             doc_id d0 = id.
Proof.
  intros Hin Hid.
  destruct (find (fun x => doc_id x =? id) (documents l)) as [d0|] eqn:Hfind.
  - exists d0. split; [reflexivity|].
    apply find_some in Hfind as [_ Heq]. now apply Z.eqb_eq.
  - exfalso. pose proof (find_none _ _ Hfind d Hin) as Hcontra.
    cbn in Hcontra. rewrite Hid, Z.eqb_refl in Hcontra. discriminate.
Qed.

(** *** What the entries of a batch say *)






(** *** Which page rows a failed fan-out leaves *)




End Facts.

(** ** Creating a document *)

(** The pages of a successful [create]. *)
Lemma create_ok_pages
        (E : Env) (ctx : Ctx) (input : CreateInput) (w : World)
        (c : Created) (w' : World) :
  create E ctx input w = (Ok c, w') ->
  exists response docs,
    fetch E (in_fileUrl input) = Ok response /\
    loadDataAsContent E (resp_body response) = Ok docs /\
    map page_pageNumber (created_pages c)
      = map Z.of_nat (seq 1 (length docs)) /\
    NoDup (map page_pageNumber (created_pages c)) /\
    Forall (fun p => page_documentId p = created_documentId c)
      (created_pages c) /\
    pages (db w') = (pages (db w) ++ created_pages c)%list /\
    (pages_refer_to_issued_documents w ->
     pages_of (created_documentId c) w' = created_pages c).
Proof.
  intros Hrun.
  destruct (create_inv E ctx input w _ _ Hrun)
    as [((m & Hm) & _) | (response & docs & rp & _ & Hf & _ & Hp & _ & Hall & Hr)];
    [discriminate|].
  destruct rp as [l|m]; [|discriminate].
  inversion Hr; subst c; clear Hr. cbn [created_pages created_documentId].
  destruct (save_pages_run E _ _ _ _ _ _ Hall)
    as (ps & Hadd & Hdoc & Hok & _ & _).
  destruct (Hok l eq_refl) as [-> Hnum].
  destruct Hadd as (_ & Hpages & _).
  assert (Hnumbers : map page_pageNumber ps = map Z.of_nat (seq 1 (length docs))).
  { rewrite Hnum. unfold extracted, mapi. apply pdf_numbers_from. }
  exists response, docs.
  split; [assumption|]. split; [assumption|]. split; [assumption|].
  split.
  { rewrite Hnumbers. apply Injective_map_NoDup.
    - intros a b. apply Nat2Z.inj.
    - apply seq_NoDup. }
  split; [assumption|].
  split; [exact Hpages|].
  intros Hwf. unfold pages_of. rewrite Hpages.
  cbn [document_inserted db pages] in *.
  rewrite filter_app, filter_none, filter_all; [reflexivity| |].
  - revert Hdoc. apply Forall_impl. intros p ->. apply Z.eqb_refl.
  - revert Hwf. unfold pages_refer_to_issued_documents.
    apply Forall_impl. intros p Hlt. cbn [new_document doc_id].
    apply Z.eqb_neq. lia.
Qed.

(** C9.  When the key is configured, the file is fetched, the parser
    gives N pages and the store rejects nothing, [create] succeeds, and the
    pages it returns are numbered 1, 2, ..., N in order; the numbers are
    pairwise distinct; the pages all belong to the new document and are
    exactly the rows added to the [pages] table; and in a store whose pages
    refer to issued documents only, they are all the pages of that
    document. *)
Theorem create_numbers_pages_from_one
        (E : Env) (ctx : Ctx) (input : CreateInput) (w : World)
        (response : Response) (docs : list string) :
  falsy_string (ELEVENLABS_API_KEY E) = false ->
  fetch E (in_fileUrl input) = Ok response ->
  resp_ok response = true ->
  loadDataAsContent E (resp_body response) = Ok docs ->
  (forall op l, db_error E op l = None) ->
  exists c w',
    create E ctx input w = (Ok c, w') /\
    map page_pageNumber (created_pages c)
      = map Z.of_nat (seq 1 (length docs)) /\
    NoDup (map page_pageNumber (created_pages c)) /\
    Forall (fun p => page_documentId p = created_documentId c)
      (created_pages c) /\
    pages (db w') = (pages (db w) ++ created_pages c)%list /\
    (pages_refer_to_issued_documents w ->
     pages_of (created_documentId c) w' = created_pages c).
Proof.
  intros Hkey Hfetch Hok Hparse Hquiet.
  destruct (create E ctx input w) as [r w'] eqn:Hrun.
  assert (Hsucc : exists c, r = Ok c).
  { destruct (create_inv E ctx input w _ _ Hrun)
      as [(_ & _ & Hstop)
         | (resp & docs' & rp & _ & _ & _ & _ & _ & Hall & Hr)].
    - exfalso.
      destruct Hstop as [Hk | [(m & Hf) | (resp & Hf & Hrest)]];
        [congruence | congruence |].
      rewrite Hfetch in Hf. inversion Hf; subst resp.
      destruct Hrest as [Hnok | [(m & Hp) | (m & Hi)]];
        [congruence | congruence |].
      rewrite Hquiet in Hi. discriminate.
    - destruct (save_pages_ok E Hquiet _ _ 0%nat _ _ _ Hall) as [l ->].
      eauto. }
  destruct Hsucc as [c ->].
  destruct (create_ok_pages E ctx input w c w' Hrun)
    as (resp & docs' & Hf & Hp & Hnum & Hnodup & Hdoc & Hpages & Hwf).
  rewrite Hfetch in Hf. inversion Hf; subst resp.
  rewrite Hparse in Hp. inversion Hp; subst docs'.
  exists c, w'. repeat (split; [first [reflexivity | assumption]|]). assumption.
Qed.

Lemma create_numbers_pages_from_one_witness :
  exists c w',
    create quiet_env alice report empty_world = (Ok c, w') /\
    map page_pageNumber (created_pages c) = [1; 2; 3] /\
    pages_of (created_documentId c) w' = created_pages c.
Proof.
  destruct (create_numbers_pages_from_one quiet_env alice report empty_world
              (mkResponse true pdf_bytes) ["one"; "two"; "three"]
              eq_refl eq_refl eq_refl eq_refl (fun _ _ => eq_refl))
    as (c & w' & Hrun & Hnum & _ & _ & _ & Hwf).
  exists c, w'. split; [exact Hrun|]. split; [exact Hnum|].
  apply Hwf. constructor.
Defined.




(** C2, as stated, fails.  The fetched file is not empty and the parser
    reports no page: [getPdfContent] returns the empty list of pages instead
    of failing, and [create] succeeds, leaving a document without pages in
    the store. *)
Lemma create_accepts_a_blank_parse :
  let E := with_parser quiet_env blank_parser in
  pdf_bytes <> [] /\
  fetch E (in_fileUrl report) = Ok (mkResponse true pdf_bytes) /\
  loadDataAsContent E pdf_bytes = Ok [] /\
  getPdfContent E pdf_bytes empty_world = (Ok [], empty_world) /\
  fst (create E alice report empty_world) = Ok (mkCreated 1 []) /\
  documents (db (snd (create E alice report empty_world)))
    = [mkDocument 1 "Report" "alice"] /\
  pages_of 1 (snd (create E alice report empty_world)) = [].
Proof.
  vm_compute. repeat split. discriminate.
Qed.

(** C2, amended.  A parse without pages is not an error for the router:
    [getPdfContent] returns the empty list, and [create], when the key is
    configured, the file is fetched and the document insert goes through,
    succeeds with an empty list of pages and leaves the new document row in
    the store with no page row added. *)
Theorem create_with_zero_pages_succeeds
        (E : Env) (ctx : Ctx) (input : CreateInput) (w : World)
        (response : Response) :
  falsy_string (ELEVENLABS_API_KEY E) = false ->
  fetch E (in_fileUrl input) = Ok response ->
  resp_ok response = true ->
  loadDataAsContent E (resp_body response) = Ok [] ->
  db_error E (OpInsertDocument (in_name input) (session_user_id ctx)) (db w)
    = None ->
  getPdfContent E (resp_body response) w = (Ok [], w) /\
  create E ctx input w
    = (Ok (mkCreated (nextDocumentId (db w)) []), document_inserted ctx input w).
Proof.
  intros Hkey Hfetch Hok Hparse Hins. split.
  - rewrite getPdfContent_run, Hparse. reflexivity.
  - unfold create. rewrite Hkey.
    unfold try_catch, bind at 1, lift_result. rewrite Hfetch, Hok. cbn [negb].
    unfold bind at 1. rewrite getPdfContent_run, Hparse.
    unfold bind at 1, insert_document, db_exec. rewrite Hins.
    reflexivity.
Qed.

Lemma create_with_zero_pages_succeeds_witness :
  let E := with_parser quiet_env blank_parser in
  getPdfContent E pdf_bytes empty_world = (Ok [], empty_world) /\
  create E alice report empty_world
    = (Ok (mkCreated 1 []), document_inserted alice report empty_world).
Proof.
  intros E.
  exact (create_with_zero_pages_succeeds E alice report empty_world
           (mkResponse true pdf_bytes) eq_refl eq_refl eq_refl eq_refl eq_refl).
Defined.

(** ** Generating audio for a batch of pages *)

(** C3, as stated, fails.  Four page ids are requested, of which 7 is the
    id of no page: the answer has three entries, none for 7, in the
    in-process revision and in the task revision alike. *)
Lemma generateAudioBook_drops_unknown_ids :
  let E := with_speech quiet_env mute_on_two in
  let input := mkGenerateInput 1 [1; 2; 3; 7] "narrator" in
  map page_id (pages (db report_world)) = [1; 2; 3] /\
  answered result_pageId (fst (generateAudioBook E alice input report_world))
    = Ok [1; 2; 3] /\
  answered run_pageId (fst (generateAudioBook_task E alice input report_world))
    = Ok [1; 2; 3] /\
  answered result_pageId (fst (generateAudioBook E alice input report_world))
    <> Ok (in_pageIds input).
Proof.
  vm_compute. repeat split. discriminate.
Qed.

(** C3, amended.  With the key configured and the page lookup answered,
    both revisions return one entry per page row whose id is among the
    requested ids, in table order, whether the page's generation succeeds or
    fails.  An id is answered if and only if it is requested and is the id
    of a page row; a requested id of no page row gets no entry. *)
Theorem generateAudioBook_answers_each_found_page
        (E : Env) (ctx : Ctx) (input : GenerateInput) (w : World) :
  falsy_string (ELEVENLABS_API_KEY E) = false ->
  db_error E (OpFindPages (in_pageIds input)) (db w) = None ->
  (exists rs w',
     generateAudioBook E ctx input w = (Ok rs, w') /\
     map result_pageId rs = map page_id (pages_found (in_pageIds input) w) /\
     forall id, In id (map result_pageId rs) <->
                In id (in_pageIds input) /\
                exists p, In p (pages (db w)) /\ page_id p = id) /\
  (exists rs,
     generateAudioBook_task E ctx input w = (Ok rs, w) /\
     map run_pageId rs = map page_id (pages_found (in_pageIds input) w) /\
     forall id, In id (map run_pageId rs) <->
                In id (in_pageIds input) /\
                exists p, In p (pages (db w)) /\ page_id p = id).
Proof.
  intros Hkey Hfind. split.
  - destruct (generateAudioBook_run E ctx input w Hkey Hfind)
      as (rs & w' & Hrun & Hids & _).
    exists rs, w'. split; [assumption|]. split; [assumption|].
    intros id. rewrite Hids. apply pages_found_ids.
  - destruct (generateAudioBook_task_run E ctx input w Hkey Hfind)
      as (rs & Hrun & Hids).
    exists rs. split; [assumption|]. split; [assumption|].
    intros id. rewrite Hids. apply pages_found_ids.
Qed.

Lemma generateAudioBook_answers_each_found_page_witness :
  let E := with_speech quiet_env mute_on_two in
  let input := mkGenerateInput 1 [1; 2; 3; 7] "narrator" in
  exists rs w',
    generateAudioBook E alice input report_world = (Ok rs, w') /\
    map result_pageId rs
      = map page_id (pages_found (in_pageIds input) report_world).
Proof.
  intros E input.
  destruct (generateAudioBook_answers_each_found_page E alice input
              report_world eq_refl eq_refl)
    as ((rs & w' & Hrun & Hids & _) & _).
  exists rs, w'. split; assumption.
Defined.

(** C4, as stated, fails.  Page 1 belongs to document 1; it is requested
    under document id 9.  The job runs all the same: the speech service is
    asked for the page's text and an audio row for page 1 is inserted. *)
Lemma generateAudioBook_runs_foreign_pages :
  let input := mkGenerateInput 9 [1] "narrator" in
  let run := generateAudioBook quiet_env bob input report_world in
  map page_documentId (pages_found [1] report_world) = [1] /\
  in_documentId input <> 1 /\
  answered result_pageId (fst run) = Ok [1] /\
  synthLog (snd run) = [("narrator", "one")] /\
  map audio_pageId (audioFiles (db (snd run))) = [1] /\
  fst (generateAudioBook_task quiet_env bob input report_world)
    = Ok [Triggered 1 "run_1"].
Proof.
  vm_compute. repeat split. discriminate.
Qed.

(** C4, amended.  No revision checks that a requested page belongs to
    [documentId]: pages are selected by id alone.  In the in-process
    revision the outcome does not depend on [documentId] at all; in the task
    revision [documentId] only travels in the payload and the pages answered
    are the same for any two values of it.  With the key configured and the
    page lookup answered, every page row whose id is requested is sent to
    the speech service and answered, whatever document it belongs to. *)
Theorem generateAudioBook_selects_by_id_alone
        (E : Env) (ctx : Ctx) (d1 d2 : Z) (ids : list Z) (voice : string)
        (w : World) :
  generateAudioBook E ctx (mkGenerateInput d1 ids voice) w
    = generateAudioBook E ctx (mkGenerateInput d2 ids voice) w /\
  answered run_pageId
    (fst (generateAudioBook_task E ctx (mkGenerateInput d1 ids voice) w))
    = answered run_pageId
        (fst (generateAudioBook_task E ctx (mkGenerateInput d2 ids voice) w)) /\
  (falsy_string (ELEVENLABS_API_KEY E) = false ->
   db_error E (OpFindPages ids) (db w) = None ->
   forall p, In p (pages (db w)) -> In (page_id p) ids ->
     In (voice, page_content p)
        (synthLog
           (snd (generateAudioBook E ctx (mkGenerateInput d1 ids voice) w))) /\
     exists rs,
       fst (generateAudioBook E ctx (mkGenerateInput d1 ids voice) w) = Ok rs /\
       In (page_id p) (map result_pageId rs)).
Proof.
  split; [reflexivity|]. split.
  - destruct (falsy_string (ELEVENLABS_API_KEY E)) eqn:Hkey.
    + unfold generateAudioBook_task. rewrite Hkey. reflexivity.
    + destruct (db_error E (OpFindPages ids) (db w)) as [m|] eqn:Hfind.
      * destruct (generateAudioBook_stops_early E ctx
                    (mkGenerateInput d1 ids voice) w m Hkey Hfind) as [_ ->].
        destruct (generateAudioBook_stops_early E ctx
                    (mkGenerateInput d2 ids voice) w m Hkey Hfind) as [_ ->].
        reflexivity.
      * destruct (generateAudioBook_task_run E ctx
                    (mkGenerateInput d1 ids voice) w Hkey Hfind)
          as (rs1 & -> & Hids1).
        destruct (generateAudioBook_task_run E ctx
                    (mkGenerateInput d2 ids voice) w Hkey Hfind)
          as (rs2 & -> & Hids2).
        cbn [fst answered in_pageIds] in *. congruence.
  - intros Hkey Hfind p Hp Hid.
    destruct (generateAudioBook_run E ctx (mkGenerateInput d1 ids voice) w
                Hkey Hfind) as (rs & w' & Hrun & Hids & _).
    cbn [in_pageIds] in Hids.
    assert (Hfound : In p (pages_found ids w)).
    { apply filter_In. split; [assumption | now apply inArray_In]. }
    split.
    + unfold generateAudioBook. rewrite Hkey.
      unfold bind at 1, findMany_pages, db_exec. cbn [in_pageIds].
      rewrite Hfind. unfold set_db. rewrite world_eta.
      fold (pages_found ids w). unfold bind, ret.
      pose proof (regenerate_pages_log E (mkGenerateInput d1 ids voice)
                    (pages_found ids w) w) as Hlog.
      destruct (promise_all _ w) as [[l|m] w2]; cbn [snd] in *;
        rewrite Hlog; apply in_or_app; right;
        unfold requests; cbn [in_voice];
        apply (in_map (fun q => (voice, page_content q))); assumption.
    + exists rs. rewrite Hrun. split; [reflexivity|].
      rewrite Hids. now apply in_map.
Qed.

Lemma generateAudioBook_selects_by_id_alone_witness :
  let run := generateAudioBook quiet_env bob
               (mkGenerateInput 9 [1] "narrator") report_world in
  page_documentId (mkPage 1 1 1 "one") <> 9 /\
  In ("narrator", "one") (synthLog (snd run)) /\
  exists rs, fst run = Ok rs /\ In 1 (map result_pageId rs).
Proof.
  intros run. split; [discriminate|].
  destruct (generateAudioBook_selects_by_id_alone quiet_env bob 9 9 [1]
              "narrator" report_world) as (_ & _ & Hruns).
  apply (Hruns eq_refl eq_refl (mkPage 1 1 1 "one")).
  - left. reflexivity.
  - left. reflexivity.
Defined.



(** C8.  A page job always settles.  When it ends in a failure entry the
    store is exactly as it was before the job: no audio row has been
    inserted.  When the [audioFiles] table has changed, the speech service
    had answered, the upload of that answer had gone through, and the change
    is the one row carried by the success entry. *)
Theorem failed_page_job_records_nothing
        (E : Env) (input : GenerateInput) (page : Page) (w : World) :
  exists r w',
    regenerate_page E input page w = (Ok r, w') /\
    (is_success r = false -> db w' = db w) /\
    (audioFiles (db w') <> audioFiles (db w) ->
     exists chunks a,
       elevenlabs_generate E (in_voice input) (page_content page) = Ok chunks /\
       upload_error E ("audio/" ++ audio_fileName a) (concat chunks) = None /\
       In (("audio/" ++ audio_fileName a)%string, concat chunks) (bucket w') /\
       r = Success (page_id page) (Some a) /\
       audioFiles (db w') = (audioFiles (db w) ++ [a])%list).
Proof.
  rewrite regenerate_page_run. cbv zeta.
  destruct (elevenlabs_generate E _ _) as [chunks|m].
  2:{ eexists; eexists. split; [reflexivity|]. split; [reflexivity|].
      intros H. now contradiction H. }
  destruct (upload_error E _ _) as [m|] eqn:Hup.
  { eexists; eexists. split; [reflexivity|]. split; [reflexivity|].
    intros H. now contradiction H. }
  destruct (db_error E _ (db w)) as [m|].
  - eexists; eexists. split; [reflexivity|]. split; [reflexivity|].
    intros H. now contradiction H.
  - eexists; eexists. split; [reflexivity|]. split; [discriminate|].
    intros _. exists chunks.
    exists (mkAudioFile (nextAudioFileId (db w)) (page_id page)
              (audio_fileName_at page (clock w))
              (audio_url E (audio_fileName_at page (clock w)))).
    cbn [audio_fileName db bucket audioFiles].
    split; [reflexivity|]. split; [exact Hup|].
    split; [apply in_or_app; right; left; reflexivity|].
    split; reflexivity.
Qed.

Lemma failed_page_job_records_nothing_witness :
  let E := with_speech quiet_env mute_on_two in
  let input := mkGenerateInput 1 [2] "narrator" in
  exists r w',
    regenerate_page E input (mkPage 2 1 2 "two") report_world = (Ok r, w') /\
    is_success r = false /\
    db w' = db report_world.
Proof.
  intros E input.
  destruct (failed_page_job_records_nothing E input (mkPage 2 1 2 "two")
              report_world) as (r & w' & Hrun & Hfail & _).
  exists r, w'. split; [exact Hrun|].
  assert (Hr : is_success r = false).
  { vm_compute in Hrun. inversion Hrun. reflexivity. }
  split; [exact Hr | exact (Hfail Hr)].
Defined.

(** ** Synthesis of an empty text *)

(** C6, as stated, fails.  The empty text is not rejected: it is sent to
    the speech service, and when the service answers with an empty stream,
    [generateAudio] returns an empty buffer; the page job then uploads the
    empty audio and inserts an audio row for the page.  A text of two spaces
    is sent on in the same way. *)
Lemma generateAudio_accepts_empty_text :
  let E := with_speech quiet_env silent_speech in
  let run := generateAudioBook E alice (mkGenerateInput 1 [2] "narrator")
               blank_page_world in
  whitespace_only "" = true /\
  generateAudio E "" "narrator" empty_world
    = (Ok [], asked empty_world "narrator" "") /\
  whitespace_only "  " = true /\
  fst (generateAudio E "  " "narrator" empty_world) = Ok (concat speech) /\
  map page_content (pages_found [2] blank_page_world) = [""] /\
  map is_success
    (match fst run with Ok rs => rs | Err _ => [] end) = [true] /\
  bucket (snd run) = [("audio/1-2-1700000000000.mp3", [])] /\
  map audio_pageId (audioFiles (db (snd run))) = [2] /\
  synthLog (snd run) = [("narrator", "")].
Proof.
  vm_compute. repeat split.
Qed.

(** C6, amended.  [generateAudio] makes no check on the text.  Whatever the
    text, empty and blank ones included, it is sent to the speech service
    once and only once; the call fails exactly when the service fails, with
    the service's message behind "Failed to generate audio: ", and otherwise
    returns the chunks of the answer joined together.  When the service
    answers a page's text with an empty stream and the upload and the insert
    go through, the page job succeeds: the empty audio is uploaded and an
    audio row is inserted. *)
Theorem generateAudio_sends_any_text
        (E : Env) (text voice : string) (w : World) :
  generateAudio E text voice w
    = (match elevenlabs_generate E voice text with
       | Ok chunks => Ok (concat chunks)
       | Err m => Err ("Failed to generate audio: " ++ m)
       end, asked w voice text) /\
  synthLog (snd (generateAudio E text voice w))
    = (synthLog w ++ [(voice, text)])%list /\
  forall (input : GenerateInput) (page : Page),
    page_content page = text -> in_voice input = voice ->
    elevenlabs_generate E voice text = Ok [] ->
    upload_error E ("audio/" ++ audio_fileName_at page (clock w)) [] = None ->
    db_error E
      (OpInsertAudioFile (page_id page) (audio_fileName_at page (clock w))
         (audio_url E (audio_fileName_at page (clock w)))) (db w) = None ->
    exists a w',
      regenerate_page E input page w
        = (Ok (Success (page_id page) (Some a)), w') /\
      In a (audioFiles (db w')) /\
      In (("audio/" ++ audio_fileName a)%string, []) (bucket w') /\
      synthLog w' = (synthLog w ++ [(voice, text)])%list.
Proof.
  split; [apply generateAudio_run|].
  split; [rewrite generateAudio_run; reflexivity|].
  intros input page Htext Hvoice Hspeech Hup Hins.
  rewrite regenerate_page_run. cbv zeta.
  rewrite Htext, Hvoice, Hspeech. cbn [concat]. rewrite Hup, Hins.
  eexists; eexists. split; [reflexivity|].
  cbn [db bucket audioFiles synthLog audio_fileName].
  split; [apply in_or_app; right; left; reflexivity|].
  split; [apply in_or_app; right; left; reflexivity|reflexivity].
Qed.

Lemma generateAudio_sends_any_text_witness :
  let E := with_speech quiet_env silent_speech in
  exists a w',
    regenerate_page E (mkGenerateInput 1 [2] "narrator") (mkPage 2 1 2 "")
      blank_page_world = (Ok (Success 2 (Some a)), w') /\
    In a (audioFiles (db w')) /\
    In (("audio/" ++ audio_fileName a)%string, []) (bucket w') /\
    synthLog w' = [("narrator", "")].
Proof.
  intros E.
  destruct (generateAudio_sends_any_text E "" "narrator" blank_page_world)
    as (_ & _ & Hjob).
  exact (Hjob (mkGenerateInput 1 [2] "narrator") (mkPage 2 1 2 "")
           eq_refl eq_refl eq_refl eq_refl eq_refl).
Defined.

(** ** Deleting a document *)

(** C5: the guards on the three delete statements never see a row count.
    Document 5 does not exist in the narrated store.  Deleting it removes no
    page row and no document row, and yet [delete] does not fail: it returns
    the result object of the last statement, with a row count of zero, and
    the store is as before.  The first revision does the same. *)
Theorem delete_of_missing_document_succeeds :
  find (fun d => doc_id d =? 5) (documents (db narrated_world)) = None /\
  delete quiet_env alice 5 narrated_world = (Ok (JsRows 0), narrated_world) /\
  delete_pages_only quiet_env alice 5 narrated_world
    = (Ok (JsRows 0), narrated_world).
Proof.
  vm_compute. repeat split.
Qed.

(** C10.  [delete] never looks at the session: two callers get the same
    outcome and leave the same world, in both revisions.  When the store
    rejects nothing, any caller deleting an existing document gets a success
    and leaves a store with no document of that id, no page of that
    document, and no audio row of any page the document had; who created the
    document plays no part. *)
Theorem delete_ignores_the_caller
        (E : Env) (caller other : Ctx) (id : Z) (w : World) :
  delete E caller id w = delete E other id w /\
  delete_pages_only E caller id w = delete_pages_only E other id w /\
  ((forall op l, db_error E op l = None) ->
   forall d, In d (documents (db w)) -> doc_id d = id ->
     exists n w',
       delete E caller id w = (Ok (JsRows n), w') /\
       (forall d', In d' (documents (db w')) -> doc_id d' <> id) /\
       pages_of id w' = [] /\
       (forall a p, In a (audioFiles (db w')) -> In p (pages_of id w) ->
                    audio_pageId a <> page_id p)).
Proof.
  split; [reflexivity|]. split; [reflexivity|].
  intros Hquiet d Hd Hid.
  eexists; eexists. split; [apply delete_run; assumption|].
  cbn [db after_delete documents pages audioFiles]. split; [|split].
  - intros d' Hin. apply filter_In in Hin as [_ Hkeep].
    apply negb_true_iff, Z.eqb_neq in Hkeep. exact Hkeep.
  - unfold pages_of. cbn [db pages]. apply filter_none.
    apply Forall_forall. intros p Hin. apply filter_In in Hin as [_ Hkeep].
    now apply negb_true_iff in Hkeep.
  - intros a p Ha Hp.
    destruct (find_document_by_id id (db w) d Hd Hid) as (d0 & Hfind & Hid0).
    unfold associatedPagesId in Ha. rewrite Hfind, Hid0 in Ha.
    fold (pages_of id w) in Ha.
    assert (Hmem : In (page_id p) (map page_id (pages_of id w)))
      by now apply in_map.
    destruct (map page_id (pages_of id w)) as [|pid pids] eqn:Hpids;
      [contradiction|].
    cbn [length Nat.ltb Nat.leb] in Ha.
    apply filter_In in Ha as [_ Hkeep]. apply negb_true_iff in Hkeep.
    intros Heq. rewrite Heq in Hkeep.
    apply inArray_In in Hmem. congruence.
Qed.

Lemma delete_ignores_the_caller_witness :
  In (mkDocument 1 "Report" "alice") (documents (db narrated_world)) /\
  session_user_id bob <> "alice" /\
  length (audioFiles (db narrated_world)) = 3%nat /\
  exists n w',
    delete quiet_env bob 1 narrated_world = (Ok (JsRows n), w') /\
    (forall d', In d' (documents (db w')) -> doc_id d' <> 1) /\
    pages_of 1 w' = [] /\
    (forall a p, In a (audioFiles (db w')) -> In p (pages_of 1 narrated_world) ->
                 audio_pageId a <> page_id p).
Proof.
  split; [vm_compute; left; reflexivity|]. split; [discriminate|].
  split; [vm_compute; reflexivity|].
  destruct (delete_ignores_the_caller quiet_env bob alice 1 narrated_world)
    as (_ & _ & Hdel).
  apply (Hdel (fun _ _ => eq_refl) (mkDocument 1 "Report" "alice")).
  - vm_compute. left. reflexivity.
  - reflexivity.
Defined.

(** ** What the procedures keep *)

Section Preservation.

Variable E : Env.

Lemma preserves_ret {A} (P : Ledger -> Prop) (a : A) : preserves P (ret a).
Proof. intros w H. exact H. Qed.

Lemma preserves_throw {A} (P : Ledger -> Prop) (m : string) :
  preserves P (@throw A m).
Proof. intros w H. exact H. Qed.

Lemma preserves_lift_result {A} (P : Ledger -> Prop) (r : Result A) :
  preserves P (lift_result r).
Proof. intros w H. exact H. Qed.

Lemma preserves_bind {A B} (P : Ledger -> Prop) (c : M A) (k : A -> M B) :
  preserves P c -> (forall a, preserves P (k a)) -> preserves P (bind c k).
Proof.
  intros Hc Hk w H. unfold bind. specialize (Hc w H).
  destruct (c w) as [[a|m] w1]; cbn [snd] in *; [apply Hk|]; assumption.
Qed.

Lemma preserves_try_catch {A} (P : Ledger -> Prop) (c : M A)
      (handler : string -> M A) :
  preserves P c -> (forall m, preserves P (handler m)) ->
  preserves P (try_catch c handler).
Proof.
  intros Hc Hh w H. unfold try_catch. specialize (Hc w H).
  destruct (c w) as [[a|m] w1]; cbn [snd] in *; [|apply Hh]; assumption.
Qed.

Lemma preserves_promise_all {A} (P : Ledger -> Prop) (ps : list (M A)) :
  Forall (preserves P) ps -> preserves P (promise_all ps).
Proof.
  induction 1 as [|p rest Hp _ IH]; intros w H; [exact H|].
  cbn [promise_all]. specialize (Hp w H).
  destruct (p w) as [r w1]. cbn [snd] in Hp. specialize (IH w1 Hp).
  destruct (promise_all rest w1) as [rs w2]. exact IH.
Qed.

Lemma preserves_read_only {A} (P : Ledger -> Prop) (c : M A) :
  read_only c -> preserves P c.
Proof. intros Hc w H. now rewrite Hc. Qed.

Lemma preserves_db_exec {A} (P : Ledger -> Prop) (op : DbOp)
      (run : Ledger -> A * Ledger) :
  (forall l, P l -> P (snd (run l))) -> preserves P (db_exec E op run).
Proof.
  intros Hrun w H. unfold db_exec.
  destruct (db_error E op (db w)); [exact H|].
  specialize (Hrun _ H). destruct (run (db w)) as [a l']. exact Hrun.
Qed.

Lemma read_only_Date_now : read_only (Date_now E).
Proof. intros w. reflexivity. Qed.

Lemma read_only_generateAudio (text voice : string) :
  read_only (generateAudio E text voice).
Proof. intros w. rewrite generateAudio_run. reflexivity. Qed.

Lemma read_only_saveAudioFile (audioBuffer : list byte) (fileName : string) :
  read_only (saveAudioFile E audioBuffer fileName).
Proof.
  intros w. rewrite saveAudioFile_run.
  destruct (upload_error E _ audioBuffer); reflexivity.
Qed.

Lemma read_only_findMany_pages (ids : list Z) : read_only (findMany_pages E ids).
Proof.
  intros w. unfold findMany_pages, db_exec.
  destruct (db_error E _ (db w)); reflexivity.
Qed.

Lemma read_only_findFirst_document (id : Z) :
  read_only (findFirst_document E id).
Proof.
  intros w. unfold findFirst_document, db_exec.
  destruct (db_error E _ (db w)); reflexivity.
Qed.

Lemma read_only_getPdfContent (buffer : list byte) :
  read_only (getPdfContent E buffer).
Proof.
  intros w. rewrite getPdfContent_run.
  destruct (loadDataAsContent E buffer); reflexivity.
Qed.

Lemma read_only_trigger_page (input : GenerateInput) (page : Page) :
  read_only (trigger_page E input page).
Proof.
  intros w. destruct (trigger_page_run E input page w) as (r & -> & _).
  reflexivity.
Qed.

(** *** Serial keys *)

Lemma NoDup_map_filter {A} (key : A -> Z) (f : A -> bool) (l : list A) :
  NoDup (map key l) -> NoDup (map key (filter f l)).
Proof.
  induction l as [|x l IH]; cbn [map filter]; intros Hnd; [constructor|].
  inversion Hnd as [|? ? Hnotin Hrest]; subst.
  destruct (f x); cbn [map]; [constructor|]; auto.
  intros Hin. apply Hnotin. apply in_map_iff in Hin as (y & Hy & Hiny).
  apply filter_In in Hiny as [Hiny _]. rewrite <- Hy. now apply in_map.
Qed.

Lemma Forall_filter {A} (P : A -> Prop) (f : A -> bool) (l : list A) :
  Forall P l -> Forall P (filter f l).
Proof.
  rewrite !Forall_forall. intros H x Hin.
  apply filter_In in Hin as [Hin _]. now apply H.
Qed.

Lemma Forall_mapi_from {A B} (Q : B -> Prop) (f : A -> nat -> B)
      (xs : list A) :
  (forall x k, Q (f x k)) -> forall i, Forall Q (mapi_from i f xs).
Proof.
  intros Hf. induction xs as [|x rest IH]; intros i; cbn [mapi_from];
    constructor; auto.
Qed.

(** A row inserted under the next value of the sequence. *)
Lemma key_appended {A} (key : A -> Z) (l : list A) (x : A) (n : Z) :
  Forall (fun y => key y < n) l -> NoDup (map key l) -> key x = n ->
  Forall (fun y => key y < n + 1) (l ++ [x]) /\ NoDup (map key (l ++ [x])).
Proof.
  intros Hlt Hnd Hx. split.
  - apply Forall_app. split.
    + revert Hlt. apply Forall_impl. intros; lia.
    + constructor; [lia | constructor].
  - rewrite map_app. cbn [map].
    apply NoDup_app; [assumption | repeat constructor; intros [] | ].
    intros k Hin [Hk|[]]. rewrite <- Hk in Hin.
    apply in_map_iff in Hin as (y & Hy & Hiny).
    rewrite Forall_forall in Hlt. specialize (Hlt y Hiny). lia.
Qed.

Lemma keys_fresh_insert_document (name createdById : string) :
  preserves keys_fresh (insert_document E name createdById).
Proof.
  apply preserves_db_exec. intros l (Hd & Hp & Ha & Hnd & Hnp & Hna).
  cbn [snd]. unfold keys_fresh.
  cbn [documents pages audioFiles nextDocumentId nextPageId nextAudioFileId].
  destruct (key_appended doc_id (documents l)
              (mkDocument (nextDocumentId l) name createdById)
              (nextDocumentId l) Hd Hnd eq_refl) as [Hd' Hnd'].
  repeat split; assumption.
Qed.

Lemma keys_fresh_insert_page (documentId pageNumber : Z) (content : string) :
  preserves keys_fresh (insert_page E documentId pageNumber content).
Proof.
  apply preserves_db_exec. intros l (Hd & Hp & Ha & Hnd & Hnp & Hna).
  cbn [snd]. unfold keys_fresh.
  cbn [documents pages audioFiles nextDocumentId nextPageId nextAudioFileId].
  destruct (key_appended page_id (pages l)
              (mkPage (nextPageId l) documentId pageNumber content)
              (nextPageId l) Hp Hnp eq_refl) as [Hp' Hnp'].
  repeat split; assumption.
Qed.

End Preservation.

Create HintDb preserve.

#[local] Hint Resolve preserves_ret preserves_throw preserves_lift_result
  keys_fresh_insert_document keys_fresh_insert_page : preserve.

#[local] Hint Extern 1 (preserves _ (Date_now _)) =>
  apply preserves_read_only, read_only_Date_now : preserve.
#[local] Hint Extern 1 (preserves _ (generateAudio _ _ _)) =>
  apply preserves_read_only, read_only_generateAudio : preserve.
#[local] Hint Extern 1 (preserves _ (saveAudioFile _ _ _)) =>
  apply preserves_read_only, read_only_saveAudioFile : preserve.
#[local] Hint Extern 1 (preserves _ (findMany_pages _ _)) =>
  apply preserves_read_only, read_only_findMany_pages : preserve.
#[local] Hint Extern 1 (preserves _ (findFirst_document _ _)) =>
  apply preserves_read_only, read_only_findFirst_document : preserve.
#[local] Hint Extern 1 (preserves _ (getPdfContent _ _)) =>
  apply preserves_read_only, read_only_getPdfContent : preserve.
#[local] Hint Extern 1 (preserves _ (trigger_page _ _ _)) =>
  apply preserves_read_only, read_only_trigger_page : preserve.

(** Walks through a procedure, one [await] at a time. *)
Ltac preserve_step :=
  match goal with
  | |- preserves _ (bind _ _) => apply preserves_bind; [|intros ?]
  | |- preserves _ (try_catch _ _) => apply preserves_try_catch; [|intros ?]
  | |- preserves _ (if ?b then _ else _) => destruct b
  | |- preserves _ (match ?x with _ => _ end) => destruct x
  | |- preserves _ _ => solve [auto with preserve]
  end.

Section KeysFresh.

Variable E : Env.

Lemma keys_fresh_save_page (doc : Document) (page : PdfPage) (index : nat) :
  preserves keys_fresh (save_page E doc page index).
Proof. unfold save_page. repeat preserve_step. Qed.

Lemma keys_fresh_create (ctx : Ctx) (input : CreateInput) :
  preserves keys_fresh (create E ctx input).
Proof.
  unfold create. repeat preserve_step.
  apply preserves_promise_all, Forall_mapi_from.
  intros page index. apply keys_fresh_save_page.
Qed.

End KeysFresh.

(** ** The steps of [delete] *)

Section Deleting.

Variable E : Env.

Lemma with_db_same (w : World) : with_db w (db w) = w.
Proof. apply world_eta. Qed.

Lemma associated_ids (id : Z) (l : Ledger) :
  match
    match find (fun d => doc_id d =? id) (documents l) with
    | Some d =>
        Some (d, filter (fun p => page_documentId p =? doc_id d) (pages l))
    | None => None
    end
  with
  | Some (_, ps) => map page_id ps
  | None => []
  end = associatedPagesId id l.
Proof.
  unfold associatedPagesId.
  destruct (find (fun d => doc_id d =? id) (documents l)); reflexivity.
Qed.

(** [delete] stops after the lookup, after the audio files, after the pages,
    or goes through; each time the store is the one the statements accepted
    so far have left. *)
Lemma delete_cases (ctx : Ctx) (id : Z) (w : World) :
  exists (r : Result JsResult) (l' : Ledger),
    delete E ctx id w = (r, with_db w l') /\
    ((l' = db w /\
      exists m, r = Err ("Failed to delete document: " ++ m)) \/
     (l' = audio_step id (db w) /\
      exists m, r = Err ("Failed to delete document: " ++ m)) \/
     (l' = pages_deleted id (audio_step id (db w)) /\
      exists m, r = Err ("Failed to delete document: " ++ m)) \/
     (l' = document_deleted id (pages_deleted id (audio_step id (db w))) /\
      r = Ok (JsRows (count_removed (fun d => negb (doc_id d =? id))
                        (documents (db w)))))).
Proof.
  unfold delete, hasPermission. cbn [negb].
  unfold try_catch, bind at 1, findFirst_document, db_exec.
  destruct (db_error E (OpFindDocument id) (db w)) as [m|] eqn:Hfind.
  { exists (Err ("Failed to delete document: " ++ m)), (db w).
    rewrite with_db_same. split; [reflexivity|]. left. eauto. }
  unfold set_db. rewrite world_eta. cbv zeta.
  rewrite !associated_ids.
  unfold audio_step.
  destruct (0 <? length (associatedPagesId id (db w)))%nat eqn:Hany.
  - unfold bind at 1 2, delete_audioFiles, db_exec.
    destruct (db_error E (OpDeleteAudioFiles _) (db w)) as [m|] eqn:Haudio.
    { exists (Err ("Failed to delete document: " ++ m)), (db w).
      rewrite with_db_same. split; [reflexivity|]. left. eauto. }
    cbn [truthy negb]. unfold ret at 1, set_db.
    fold (audio_deleted (associatedPagesId id (db w)) (db w)).
    unfold bind at 1, delete_pages, db_exec. cbn [db].
    destruct (db_error E (OpDeletePages id) _) as [m|] eqn:Hpages.
    { eexists; eexists. split; [reflexivity|]. right; left. eauto. }
    cbn [truthy negb]. unfold set_db. cbn [db bucket clock synthLog].
    fold (pages_deleted id (audio_deleted (associatedPagesId id (db w)) (db w))).
    unfold bind, delete_document, db_exec. cbn [db].
    destruct (db_error E (OpDeleteDocument id) _) as [m|] eqn:Hdoc.
    { eexists; eexists. split; [reflexivity|]. right; right; left. eauto. }
    cbn [truthy negb]. unfold ret, set_db. cbn [db bucket clock synthLog].
    eexists; eexists. split; [reflexivity|]. right; right; right.
    split; reflexivity.
  - unfold bind at 1, ret at 1.
    unfold bind at 1, delete_pages, db_exec.
    destruct (db_error E (OpDeletePages id) _) as [m|] eqn:Hpages.
    { exists (Err ("Failed to delete document: " ++ m)), (db w).
      rewrite with_db_same. split; [reflexivity|]. right; left. eauto. }
    cbn [truthy negb]. unfold set_db.
    fold (pages_deleted id (db w)).
    unfold bind, delete_document, db_exec. cbn [db].
    destruct (db_error E (OpDeleteDocument id) _) as [m|] eqn:Hdoc.
    { eexists; eexists. split; [reflexivity|]. right; right; left. eauto. }
    cbn [truthy negb]. unfold ret, set_db. cbn [db bucket clock synthLog].
    eexists; eexists. split; [reflexivity|]. right; right; right.
    split; reflexivity.
Qed.

End Deleting.

Section DeletingFacts.

Variable E : Env.

Lemma filter_idem {A} (f : A -> bool) (l : list A) :
  filter f (filter f l) = filter f l.
Proof.
  apply filter_all, Forall_forall. intros x Hin.
  now apply filter_In in Hin.
Qed.

Lemma count_removed_nothing {A} (f : A -> bool) (l : list A) :
  count_removed f (filter f l) = 0%nat.
Proof. unfold count_removed. rewrite filter_idem. lia. Qed.

Lemma no_document_left (id : Z) (ds : list Document) :
  find (fun d => doc_id d =? id) (filter (fun d => negb (doc_id d =? id)) ds)
  = None.
Proof.
  destruct (find _ _) as [d|] eqn:Hfind; [|reflexivity].
  apply find_some in Hfind as [Hin Heq].
  apply filter_In in Hin as [_ Hneq]. rewrite Heq in Hneq. discriminate.
Qed.

Lemma after_delete_steps (id : Z) (l : Ledger) :
  document_deleted id (pages_deleted id (audio_step id l)) = after_delete id l.
Proof.
  unfold audio_step, after_delete.
  destruct (0 <? length (associatedPagesId id l))%nat; reflexivity.
Qed.

Lemma after_delete_idem (id : Z) (l : Ledger) :
  after_delete id (after_delete id l) = after_delete id l.
Proof.
  unfold after_delete at 1.
  assert (Hids : associatedPagesId id (after_delete id l) = []).
  { unfold associatedPagesId, after_delete. cbn [documents].
    now rewrite no_document_left. }
  rewrite Hids. cbn [length Nat.ltb Nat.leb].
  unfold after_delete. cbn [documents pages audioFiles nextDocumentId
    nextPageId nextAudioFileId].
  now rewrite !filter_idem.
Qed.

(** The ids collected for the audio step are ids of pages of the document. *)
Lemma associated_ids_in (id : Z) (l : Ledger) (x : Z) :
  In x (associatedPagesId id l) ->
  exists p, In p (pages l) /\ page_documentId p = id /\ page_id p = x.
Proof.
  unfold associatedPagesId.
  destruct (find _ _) as [d|] eqn:Hfind; [|intros []].
  apply find_some in Hfind as [_ Heq]. apply Z.eqb_eq in Heq.
  intros Hin. apply in_map_iff in Hin as (p & Hx & Hp).
  apply filter_In in Hp as [Hp Hdoc]. apply Z.eqb_eq in Hdoc.
  exists p. repeat split; congruence.
Qed.

(** When the document exists, every page of it is collected. *)
Lemma associated_ids_all (id : Z) (l : Ledger) (p : Page) :
  In id (map doc_id (documents l)) ->
  In p (pages l) -> page_documentId p = id ->
  In (page_id p) (associatedPagesId id l).
Proof.
  intros Hdoc Hp Hpd. apply in_map_iff in Hdoc as (d & Hd & Hin).
  destruct (find_document_by_id id l d Hin Hd) as (d0 & Hfind & Hid0).
  unfold associatedPagesId. rewrite Hfind. apply in_map.
  apply filter_In. split; [assumption|]. apply Z.eqb_eq. congruence.
Qed.

Lemma audio_step_keeps (id : Z) (l : Ledger) :
  documents (audio_step id l) = documents l /\
  pages (audio_step id l) = pages l /\
  (forall a, In a (audioFiles (audio_step id l)) ->
     In a (audioFiles l) /\ ~ In (audio_pageId a) (associatedPagesId id l)) /\
  (forall a, In a (audioFiles l) ->
     ~ In (audio_pageId a) (associatedPagesId id l) ->
     In a (audioFiles (audio_step id l))).
Proof.
  unfold audio_step.
  destruct (0 <? length (associatedPagesId id l))%nat eqn:Hany.
  - cbn [audio_deleted documents pages audioFiles].
    split; [reflexivity|]. split; [reflexivity|]. split.
    + intros a Hin. apply filter_In in Hin as [Hin Hkeep]. split; [assumption|].
      apply negb_true_iff in Hkeep. rewrite <- inArray_In. congruence.
    + intros a Hin Hnot. apply filter_In. split; [assumption|].
      apply negb_true_iff. destruct (inArray _ _) eqn:Harr; [|reflexivity].
      apply inArray_In in Harr. contradiction.
  - destruct (associatedPagesId id l); [|discriminate].
    repeat split; auto.
Qed.

(** The foreign keys survive every way [delete] can end. *)
Lemma refs_ok_delete_steps (id : Z) (l : Ledger) :
  refs_ok l ->
  refs_ok (audio_step id l) /\
  refs_ok (pages_deleted id (audio_step id l)) /\
  refs_ok (document_deleted id (pages_deleted id (audio_step id l))).
Proof.
  intros [Hpages Haudio].
  destruct (audio_step_keeps id l) as (Hd & Hp & Hsub & _).
  rewrite Forall_forall in Hpages, Haudio.
  assert (Hleft : forall a, In a (audioFiles (audio_step id l)) ->
            In (audio_pageId a)
               (map page_id
                  (filter (fun p => negb (page_documentId p =? id)) (pages l)))).
  { intros a Ha. destruct (Hsub a Ha) as [Hin Hnot].
    specialize (Haudio a Hin). apply in_map_iff in Haudio as (p & Hid & Hp').
    apply in_map_iff. exists p. split; [assumption|].
    apply filter_In. split; [assumption|]. apply negb_true_iff, Z.eqb_neq.
    intros Hdoc. apply Hnot. rewrite <- Hid.
    apply associated_ids_all; [|assumption|assumption].
    rewrite <- Hdoc. now apply Hpages. }
  split; [|split].
  - split; apply Forall_forall.
    + rewrite Hp, Hd. exact Hpages.
    + intros a Ha. rewrite Hp. apply Haudio. now apply Hsub.
  - unfold pages_deleted. split; cbn [documents pages audioFiles];
      apply Forall_forall.
    + intros p Hin. rewrite Hp in Hin. apply filter_In in Hin as [Hin _].
      rewrite Hd. now apply Hpages.
    + intros a Ha. rewrite Hp. now apply Hleft.
  - unfold document_deleted, pages_deleted.
    split; cbn [documents pages audioFiles]; apply Forall_forall.
    + intros p Hin. rewrite Hp in Hin. apply filter_In in Hin as [Hin Hkeep].
      rewrite Hd. specialize (Hpages p Hin).
      apply in_map_iff in Hpages as (d & Hid & Hdin).
      apply in_map_iff. exists d. split; [assumption|].
      apply filter_In. split; [assumption|]. now rewrite Hid.
    + intros a Ha. rewrite Hp. now apply Hleft.
Qed.

End DeletingFacts.

(** ** More on deleting *)

(** X1.  However [delete] ends, and whatever statement the store rejects,
    a store whose foreign keys were in order is left with its foreign keys
    in order: no page without its document, no audio file without its
    page. *)
Theorem delete_keeps_foreign_keys
        (E : Env) (ctx : Ctx) (id : Z) (w : World) :
  refs_ok (db w) -> refs_ok (db (snd (delete E ctx id w))).
Proof.
  intros Hrefs.
  destruct (refs_ok_delete_steps id (db w) Hrefs) as (H1 & H2 & H3).
  destruct (delete_cases E ctx id w)
    as (r & l' & -> & [[-> _] | [[-> _] | [[-> _] | [-> _]]]]);
    cbn [snd with_db db]; assumption.
Qed.

Lemma delete_keeps_foreign_keys_witness :
  let w' := snd (delete (with_db_error quiet_env documents_locked) bob 1
                   narrated_world) in
  refs_ok (db w') /\ map doc_id (documents (db w')) = [1] /\ pages (db w') = [].
Proof.
  intros w'. split; [|vm_compute; split; reflexivity].
  apply (delete_keeps_foreign_keys (with_db_error quiet_env documents_locked)
           bob 1 narrated_world).
  vm_compute.
  split; repeat (apply Forall_cons; [auto 10|]); apply Forall_nil.
Defined.

(** X2.  [delete] never touches the bucket, the clock or the speech log,
    so the audio objects of a deleted document stay in the bucket.  It never
    adds a row, and it removes nothing but document [id], pages of document
    [id] and audio files of pages of document [id]: every other row is
    still there however [delete] ends. *)
Theorem delete_touches_one_document_only
        (E : Env) (ctx : Ctx) (id : Z) (w : World) :
  let w' := snd (delete E ctx id w) in
  bucket w' = bucket w /\ clock w' = clock w /\ synthLog w' = synthLog w /\
  (forall d, In d (documents (db w')) -> In d (documents (db w))) /\
  (forall p, In p (pages (db w')) -> In p (pages (db w))) /\
  (forall a, In a (audioFiles (db w')) -> In a (audioFiles (db w))) /\
  (forall d, In d (documents (db w)) -> doc_id d <> id ->
             In d (documents (db w'))) /\
  (forall p, In p (pages (db w)) -> page_documentId p <> id ->
             In p (pages (db w'))) /\
  (forall a, In a (audioFiles (db w)) ->
             (forall p, In p (pages (db w)) -> page_documentId p = id ->
                        page_id p <> audio_pageId a) ->
             In a (audioFiles (db w'))).
Proof.
  intros w'. subst w'.
  destruct (audio_step_keeps id (db w)) as (Hd & Hp & Hsub & Hkeep).
  assert (Haudio : forall a, In a (audioFiles (db w)) ->
            (forall p, In p (pages (db w)) -> page_documentId p = id ->
                       page_id p <> audio_pageId a) ->
            In a (audioFiles (audio_step id (db w)))).
  { intros a Ha Hother. apply Hkeep; [assumption|].
    intros Hin. apply associated_ids_in in Hin as (p & Hpin & Hdoc & Hid).
    exact (Hother p Hpin Hdoc Hid). }
  assert (Hless : forall a, In a (audioFiles (audio_step id (db w))) ->
                            In a (audioFiles (db w)))
    by (intros a Ha; now apply Hsub).
  assert (Hfd : forall d, In d (filter (fun d => negb (doc_id d =? id))
                                  (documents (db w))) <->
                          In d (documents (db w)) /\ doc_id d <> id).
  { intros d. now rewrite filter_In, negb_true_iff, Z.eqb_neq. }
  assert (Hfp : forall p, In p (filter (fun p => negb (page_documentId p =? id))
                                  (pages (db w))) <->
                          In p (pages (db w)) /\ page_documentId p <> id).
  { intros p. now rewrite filter_In, negb_true_iff, Z.eqb_neq. }
  destruct (delete_cases E ctx id w)
    as (r & l' & -> & [[-> _] | [[-> _] | [[-> _] | [-> _]]]]);
    cbn [snd with_db db bucket clock synthLog pages_deleted document_deleted
           documents pages audioFiles];
    (split; [reflexivity|]); (split; [reflexivity|]); (split; [reflexivity|]);
    rewrite ?Hd, ?Hp;
    repeat split; auto; intros x; rewrite ?Hfd, ?Hfp; tauto.
Qed.

Lemma delete_touches_one_document_only_witness :
  let w' := snd (delete quiet_env bob 1 narrated_world) in
  length (bucket narrated_world) = 3%nat /\ bucket w' = bucket narrated_world.
Proof.
  intros w'. split; [vm_compute; reflexivity|].
  destruct (delete_touches_one_document_only quiet_env bob 1 narrated_world)
    as (Hbucket & _).
  exact Hbucket.
Defined.

(** X3.  When [delete] fails, the message starts with "Failed to delete
    document: " and the [documents] table is as it was: the document row is
    the last thing to go.  Pages and audio files may be gone already. *)
Theorem failed_delete_keeps_the_document
        (E : Env) (ctx : Ctx) (id : Z) (w : World) (m : string) (w' : World) :
  delete E ctx id w = (Err m, w') ->
  documents (db w') = documents (db w) /\
  exists cause, m = "Failed to delete document: " ++ cause.
Proof.
  intros Hrun.
  destruct (audio_step_keeps id (db w)) as (Hd & _).
  destruct (delete_cases E ctx id w) as (r & l' & Heq & Hcases).
  rewrite Heq in Hrun. inversion Hrun; subst r w'; clear Hrun.
  cbn [with_db db].
  destruct Hcases
    as [[-> (c & Hm)] | [[-> (c & Hm)] | [[-> (c & Hm)] | [-> Hm]]]];
    try discriminate;
    (split; [cbn [pages_deleted documents]; auto | exists c; congruence]).
Qed.

Lemma failed_delete_keeps_the_document_witness :
  let run := delete (with_db_error quiet_env documents_locked) bob 1
               narrated_world in
  fst run = Err "Failed to delete document: permission denied for table documents" /\
  documents (db (snd run)) = documents (db narrated_world) /\
  pages (db (snd run)) = [] /\ audioFiles (db (snd run)) = [].
Proof.
  intros run.
  assert (Hrun : run = (Err "Failed to delete document: permission denied for table documents",
                        snd run)) by (vm_compute; reflexivity).
  destruct (failed_delete_keeps_the_document
              (with_db_error quiet_env documents_locked) bob 1 narrated_world
              _ (snd run) Hrun) as [Hdocs _].
  split; [vm_compute; reflexivity|]. split; [exact Hdocs|].
  vm_compute. split; reflexivity.
Defined.

(** X4.  With a store that rejects nothing, deleting a document a second
    time removes nothing: the second call succeeds with a row count of zero
    and leaves the world as the first call left it. *)
Theorem delete_twice_is_delete_once
        (E : Env) (ctx ctx' : Ctx) (id : Z) (w : World) :
  (forall op l, db_error E op l = None) ->
  delete E ctx' id (snd (delete E ctx id w))
  = (Ok (JsRows 0), snd (delete E ctx id w)).
Proof.
  intros Hquiet. rewrite (delete_run E ctx id w Hquiet). cbn [snd].
  rewrite (delete_run E ctx' id _ Hquiet). cbn [db bucket clock synthLog].
  rewrite after_delete_idem. unfold after_delete at 1. cbn [documents].
  now rewrite count_removed_nothing.
Qed.

Lemma delete_twice_is_delete_once_witness :
  delete quiet_env alice 1 (snd (delete quiet_env bob 1 narrated_world))
  = (Ok (JsRows 0), snd (delete quiet_env bob 1 narrated_world)).
Proof.
  exact (delete_twice_is_delete_once quiet_env bob alice 1 narrated_world
           (fun _ _ => eq_refl)).
Defined.

(** ** More on creating *)

Section CreatingFacts.

Variable E : Env.

Lemma try_catch_prefix {A} (c : M A) (prefix : string) (w : World)
      (m : string) (w' : World) :
  try_catch c (fun cause => throw (prefix ++ cause)) w = (Err m, w') ->
  exists cause, m = prefix ++ cause.
Proof.
  unfold try_catch, throw. destruct (c w) as [[a|cause] w1]; intros H;
    inversion H. eauto.
Qed.

Lemma save_pages_content (doc : Document) (pdfPages : list PdfPage) :
  forall (i : nat) (w : World) (l : list Page) (w' : World),
    promise_all (mapi_from i (save_page E doc) pdfPages) w = (Ok l, w') ->
    map page_content l = map pdf_content pdfPages.
Proof.
  induction pdfPages as [|page rest IH]; intros i w l w' Hrun.
  - cbn in Hrun. inversion Hrun. reflexivity.
  - cbn [mapi_from promise_all] in Hrun. rewrite save_page_run in Hrun.
    destruct (db_error E _ (db w)) as [m|].
    + destruct (promise_all _ w) as [rs w2]. discriminate.
    + cbv beta iota zeta in Hrun.
      destruct (promise_all (mapi_from (S i) (save_page E doc) rest) _)
        as [[l0|m0] w2] eqn:Hrest; [|discriminate].
      inversion Hrun; subst. cbn [map page_content]. f_equal.
      eapply IH. eassumption.
Qed.

Lemma extracted_content (docs : list string) :
  map pdf_content (extracted docs) = docs.
Proof.
  unfold extracted, mapi. generalize 0%nat.
  induction docs as [|d rest IH]; intros i; cbn [mapi_from map pdf_content];
    [reflexivity | now rewrite IH].
Qed.

(** The two ways [create] can leave the store. *)
Lemma create_shapes (ctx : Ctx) (input : CreateInput) (w : World) :
  let w' := snd (create E ctx input w) in
  w' = w \/
  exists ps,
    only_pages_added (document_inserted ctx input w) w' ps /\
    Forall (fun p => page_documentId p = nextDocumentId (db w)) ps.
Proof.
  intros w'. subst w'.
  destruct (create E ctx input w) as [r w'] eqn:Hrun. cbn [snd].
  destruct (create_inv E ctx input w r w' Hrun)
    as [(_ & -> & _) | (resp & docs & rp & _ & _ & _ & _ & _ & Hall & _)];
    [now left | right].
  destruct (save_pages_run E _ _ _ _ _ _ Hall) as (ps & Hadd & Hdoc & _).
  exists ps. split; assumption.
Qed.

Lemma refs_ok_create (ctx : Ctx) (input : CreateInput) :
  preserves refs_ok (create E ctx input).
Proof.
  intros w [Hpages Haudio].
  destruct (create_shapes ctx input w) as [-> | (ps & Hadd & Hdoc)];
    [split; assumption|].
  destruct Hadd as (Hd & Hp & Ha & _).
  cbn [document_inserted db documents pages audioFiles] in Hd, Hp, Ha.
  unfold refs_ok. rewrite Hd, Hp, Ha. split.
  - apply Forall_app. split.
    + revert Hpages. apply Forall_impl. intros p Hin.
      rewrite map_app. apply in_or_app. now left.
    + revert Hdoc. apply Forall_impl. intros p ->.
      rewrite map_app. apply in_or_app. right. now left.
  - revert Haudio. apply Forall_impl. intros a Hin.
    rewrite map_app. apply in_or_app. now left.
Qed.

End CreatingFacts.

(** X5.  A failure of [create] is one of two kinds.  Without the key the
    message is "ElevenLabs API key is not configured" and nothing has been
    done.  Otherwise the message starts with "Failed to create document: ",
    and the world is either untouched or has the new document row in the
    [documents] table: a failure that comes before the document insert
    (fetch, response not ok, parser, document insert) writes nothing at
    all. *)
Theorem create_failure_is_labelled
        (E : Env) (ctx : Ctx) (input : CreateInput) (w : World)
        (m : string) (w' : World) :
  create E ctx input w = (Err m, w') ->
  (falsy_string (ELEVENLABS_API_KEY E) = true /\
   m = "ElevenLabs API key is not configured" /\ w' = w) \/
  (falsy_string (ELEVENLABS_API_KEY E) = false /\
   (exists cause, m = "Failed to create document: " ++ cause) /\
   (w' = w \/
    documents (db w') = (documents (db w) ++ [new_document ctx input w])%list)).
Proof.
  intros Hrun.
  destruct (falsy_string (ELEVENLABS_API_KEY E)) eqn:Hkey.
  - left. unfold create in Hrun. rewrite Hkey in Hrun.
    inversion Hrun. auto.
  - right. split; [reflexivity|]. split.
    + unfold create in Hrun. rewrite Hkey in Hrun.
      exact (try_catch_prefix _ _ _ _ _ Hrun).
    + pose proof (create_shapes E ctx input w) as Hshape.
      rewrite Hrun in Hshape. cbn [snd] in Hshape.
      destruct Hshape as [-> | (ps & (Hd & _) & _)]; [now left | right].
      exact Hd.
Qed.

Lemma create_failure_is_labelled_witness :
  let E := with_parser quiet_env (fun _ => Err "not a PDF") in
  create E alice report report_world
  = (Err "Failed to create document: Failed to process PDF document: not a PDF",
     report_world) /\
  exists cause,
    "Failed to create document: Failed to process PDF document: not a PDF"
    = "Failed to create document: " ++ cause.
Proof.
  intros E.
  assert (Hrun : create E alice report report_world
                 = (Err "Failed to create document: Failed to process PDF document: not a PDF",
                    report_world)) by (vm_compute; reflexivity).
  split; [exact Hrun|].
  destruct (create_failure_is_labelled E alice report report_world _ _ Hrun)
    as [(Hkey & _) | (_ & Hlabel & _)]; [discriminate Hkey | exact Hlabel].
Defined.

(** X6.  However [create] ends, it only appends: the documents and pages
    that were in the store are still there, in place, followed by what
    [create] inserted; the audio files, the bucket and the speech log are
    untouched. *)
Theorem create_only_appends
        (E : Env) (ctx : Ctx) (input : CreateInput) (w : World) :
  let w' := snd (create E ctx input w) in
  (exists ds ps,
     documents (db w') = (documents (db w) ++ ds)%list /\
     pages (db w') = (pages (db w) ++ ps)%list /\
     (length ds <= 1)%nat /\
     Forall (fun d => doc_createdById d = session_user_id ctx /\
                      doc_name d = in_name input) ds /\
     Forall (fun p => exists d, In d ds /\ page_documentId p = doc_id d) ps) /\
  audioFiles (db w') = audioFiles (db w) /\
  bucket w' = bucket w /\
  synthLog w' = synthLog w.
Proof.
  intros w'. subst w'.
  destruct (create_shapes E ctx input w) as [-> | (ps & Hadd & Hdoc)].
  - split; [|repeat split; reflexivity].
    exists [], []. rewrite !app_nil_r. repeat split; auto.
  - destruct Hadd as (Hd & Hp & Ha & _ & Hb & Hs).
    cbn [document_inserted db documents pages audioFiles bucket synthLog]
      in Hd, Hp, Ha, Hb, Hs.
    split; [|repeat split; assumption].
    exists [new_document ctx input w], ps.
    split; [assumption|]. split; [assumption|]. split; [cbn; lia|].
    split; [repeat constructor|].
    revert Hdoc. apply Forall_impl. intros p Hp'.
    exists (new_document ctx input w). split; [now left | exact Hp'].
Qed.

(** X7.  When [create] succeeds, the page rows carry the texts of the
    parser unchanged and in order, under the id of the one document row
    inserted, which has the name given and the caller as its creator. *)
Theorem create_stores_the_parsed_texts
        (E : Env) (ctx : Ctx) (input : CreateInput) (w : World)
        (c : Created) (w' : World) :
  create E ctx input w = (Ok c, w') ->
  exists response docs,
    fetch E (in_fileUrl input) = Ok response /\
    loadDataAsContent E (resp_body response) = Ok docs /\
    map page_content (created_pages c) = docs /\
    created_documentId c = nextDocumentId (db w) /\
    documents (db w')
    = (documents (db w)
         ++ [mkDocument (created_documentId c) (in_name input)
               (session_user_id ctx)])%list.
Proof.
  intros Hrun.
  destruct (create_inv E ctx input w _ _ Hrun)
    as [((m & Hm) & _)
       | (response & docs & rp & _ & Hf & _ & Hp & _ & Hall & Hr)];
    [discriminate|].
  destruct rp as [l|m]; [|discriminate].
  inversion Hr; subst c; clear Hr. cbn [created_pages created_documentId].
  exists response, docs. split; [assumption|]. split; [assumption|].
  split; [|split; [reflexivity|]].
  - unfold mapi in Hall.
    rewrite (save_pages_content E _ _ _ _ _ _ Hall). apply extracted_content.
  - destruct (save_pages_run E _ _ _ _ _ _ Hall) as (ps & (Hd & _) & _).
    exact Hd.
Qed.

Lemma create_stores_the_parsed_texts_witness :
  exists c w',
    create quiet_env alice report empty_world = (Ok c, w') /\
    map page_content (created_pages c) = ["one"; "two"; "three"].
Proof.
  destruct (create quiet_env alice report empty_world) as [[c|m] w'] eqn:Hrun;
    [|vm_compute in Hrun; discriminate].
  exists c, w'. split; [reflexivity|].
  destruct (create_stores_the_parsed_texts quiet_env alice report empty_world
              c w' Hrun) as (response & docs & Hf & Hp & Hc & _).
  change (Ok ["one"; "two"; "three"] = Ok docs) in Hp.
  injection Hp as <-. exact Hc.
Defined.

(** ** More on generating audio *)

Section GeneratingFacts.

Variable E : Env.

Lemma trigger_page_report (input : GenerateInput) (page : Page) (w : World) :
  exists r, trigger_page E input page w = (Ok r, w) /\
            trigger_report E input page r.
Proof.
  unfold trigger_page, trigger_report. run_monad.
  destruct (task_trigger E _) as [runId|m] eqn:Ht.
  - destruct (runs_retrieve E runId) as [m|] eqn:Hr.
    + exists (NotTriggered (page_id page) m). split; [reflexivity|].
      cbv zeta. split; [reflexivity|]. right. exists runId. auto.
    + exists (Triggered (page_id page) runId). split; [reflexivity|].
      cbv zeta. auto.
  - exists (NotTriggered (page_id page) m). split; [reflexivity|].
    cbv zeta. auto.
Qed.

Lemma trigger_pages_report (input : GenerateInput) (ps : list Page) (w : World) :
  exists rs,
    promise_all (map (trigger_page E input) ps) w = (Ok rs, w) /\
    Forall2 (trigger_report E input) ps rs.
Proof.
  induction ps as [|page rest IH].
  - exists []. split; [reflexivity | constructor].
  - destruct (trigger_page_report input page w) as (r & Hr & Hrep).
    destruct IH as (rs & Hrs & Hreps).
    exists (r :: rs). cbn [map promise_all]. rewrite Hr, Hrs.
    split; [reflexivity | now constructor].
Qed.

Lemma pages_found_nothing (w : World) : pages_found [] w = [].
Proof.
  unfold pages_found. apply filter_none, Forall_forall. reflexivity.
Qed.

Lemma recorded_successes (rs : list PageResult) :
  Forall entry_consistent rs ->
  map audio_pageId (recorded rs) = map result_pageId (filter is_success rs).
Proof.
  induction 1 as [|r rs Hr _ IH]; [reflexivity|].
  destruct r as [pid oa|pid m]; cbn [recorded flat_map filter is_success map].
  - destruct Hr as (a & -> & Hpid). cbn [app map result_pageId].
    fold (recorded rs). now rewrite IH, Hpid.
  - cbn [app]. exact IH.
Qed.

(** The in-process revision, whatever the key and the lookup do. *)
Lemma generateAudioBook_cases (ctx : Ctx) (input : GenerateInput) (w : World) :
  (snd (generateAudioBook E ctx input w) = w /\
   exists m, fst (generateAudioBook E ctx input w) = Err m) \/
  (falsy_string (ELEVENLABS_API_KEY E) = false /\
   db_error E (OpFindPages (in_pageIds input)) (db w) = None).
Proof.
  destruct (falsy_string (ELEVENLABS_API_KEY E)) eqn:Hkey.
  - left. unfold generateAudioBook. rewrite Hkey.
    split; [reflexivity | eexists; reflexivity].
  - destruct (db_error E (OpFindPages (in_pageIds input)) (db w)) as [m|] eqn:Hf.
    + left. destruct (generateAudioBook_stops_early E ctx input w m Hkey Hf)
        as [-> _]. split; [reflexivity | eexists; reflexivity].
    + right. split; reflexivity.
Qed.

Lemma refs_ok_generateAudioBook (ctx : Ctx) (input : GenerateInput) :
  preserves refs_ok (generateAudioBook E ctx input).
Proof.
  intros w [Hpages Haudio].
  destruct (generateAudioBook_cases ctx input w) as [[-> _] | [Hkey Hfind]];
    [split; assumption|].
  destruct (generateAudioBook_run E ctx input w Hkey Hfind)
    as (rs & w' & Hrun & Hids & [Hd Hp Ha _ He]).
  rewrite Hrun. cbn [snd]. unfold refs_ok. rewrite Hd, Hp, Ha.
  split; [assumption|]. apply Forall_app. split; [assumption|].
  apply Forall_forall. intros a Hin.
  assert (Hpid : In (audio_pageId a) (map audio_pageId (recorded rs)))
    by now apply in_map.
  rewrite (recorded_successes rs He) in Hpid.
  apply in_map_iff in Hpid as (r & Hr & Hrin).
  apply filter_In in Hrin as [Hrin _].
  assert (Hres : In (audio_pageId a) (map result_pageId rs)).
  { rewrite <- Hr. now apply in_map. }
  rewrite Hids in Hres. apply (pages_found_ids (in_pageIds input) w) in Hres.
  destruct Hres as (_ & p & Hp' & Hid). rewrite <- Hid. now apply in_map.
Qed.

End GeneratingFacts.



(** X9.  A batch never removes or changes an audio row: with the key
    configured and the lookup answered, the [audioFiles] table after the
    batch is the table before it followed by new rows, and the new rows are,
    up to the order in which the jobs got to insert them, exactly the rows
    carried by the success entries: one per success entry, for the page of
    that entry.  Documents and pages are untouched. *)
Theorem generateAudioBook_adds_a_row_per_success
        (E : Env) (ctx : Ctx) (input : GenerateInput) (w : World) :
  falsy_string (ELEVENLABS_API_KEY E) = false ->
  db_error E (OpFindPages (in_pageIds input)) (db w) = None ->
  exists rs w' added,
    generateAudioBook E ctx input w = (Ok rs, w') /\
    audioFiles (db w') = (audioFiles (db w) ++ added)%list /\
    Permutation added (recorded rs) /\
    Permutation (map audio_pageId added)
      (map result_pageId (filter is_success rs)) /\
    Forall (fun r => match r with
                     | Success pid oa =>
                         exists a, oa = Some a /\ audio_pageId a = pid
                     | Failure _ _ => True
                     end) rs /\
    documents (db w') = documents (db w) /\
    pages (db w') = pages (db w).
Proof.
  intros Hkey Hfind.
  destruct (generateAudioBook_run E ctx input w Hkey Hfind)
    as (rs & w' & Hrun & _ & [Hd Hp Ha _ He]).
  exists rs, w', (recorded rs). split; [assumption|]. split; [assumption|].
  split; [reflexivity|].
  split; [now rewrite recorded_successes|]. split; [exact He|].
  split; assumption.
Qed.

Lemma generateAudioBook_adds_a_row_per_success_witness :
  let input := mkGenerateInput 1 [1] "narrator" in
  exists rs w' added,
    generateAudioBook quiet_env alice input narrated_world = (Ok rs, w') /\
    audioFiles (db w') = (audioFiles (db narrated_world) ++ added)%list /\
    Permutation (map audio_pageId added)
      (map result_pageId (filter is_success rs)).
Proof.
  intros input.
  destruct (generateAudioBook_adds_a_row_per_success quiet_env alice input
              narrated_world eq_refl eq_refl)
    as (rs & w' & added & Hrun & Ha & _ & Hids & _).
  exists rs, w', added. repeat split; assumption.
Defined.

(** X10.  With the key configured and the lookup answered, the speech
    service is asked exactly once for each page found, in table order, with
    the voice of the request and the text of the page: nothing is asked
    twice and nothing else is asked. *)
Theorem generateAudioBook_asks_once_per_page
        (E : Env) (ctx : Ctx) (input : GenerateInput) (w : World) :
  falsy_string (ELEVENLABS_API_KEY E) = false ->
  db_error E (OpFindPages (in_pageIds input)) (db w) = None ->
  synthLog (snd (generateAudioBook E ctx input w))
  = (synthLog w
       ++ map (fun p => (in_voice input, page_content p))
            (pages_found (in_pageIds input) w))%list.
Proof.
  intros Hkey Hfind.
  unfold generateAudioBook. rewrite Hkey.
  unfold bind at 1, findMany_pages, db_exec. rewrite Hfind.
  unfold set_db. rewrite world_eta.
  fold (pages_found (in_pageIds input) w). unfold bind, ret.
  pose proof (regenerate_pages_log E input (pages_found (in_pageIds input) w) w)
    as Hlog.
  destruct (promise_all _ w) as [[l|m] w2]; exact Hlog.
Qed.

Lemma generateAudioBook_asks_once_per_page_witness :
  let E := with_speech quiet_env mute_on_two in
  synthLog (snd (generateAudioBook E alice
                   (mkGenerateInput 1 [2; 2; 1] "narrator") report_world))
  = [("narrator", "one"); ("narrator", "two")].
Proof.
  intros E.
  exact (generateAudioBook_asks_once_per_page E alice
           (mkGenerateInput 1 [2; 2; 1] "narrator") report_world
           eq_refl eq_refl).
Defined.

(** X11.  In a store with serial keys, no page is answered twice, however
    often its id is repeated in the request; this holds for both
    revisions. *)
Theorem generateAudioBook_answers_a_page_once
        (E : Env) (ctx : Ctx) (input : GenerateInput) (w : World) :
  keys_fresh (db w) ->
  (forall rs w', generateAudioBook E ctx input w = (Ok rs, w') ->
                 NoDup (map result_pageId rs)) /\
  (forall rs w', generateAudioBook_task E ctx input w = (Ok rs, w') ->
                 NoDup (map run_pageId rs)).
Proof.
  intros (_ & _ & _ & _ & Hnd & _).
  assert (Hfound : NoDup (map page_id (pages_found (in_pageIds input) w)))
    by now apply NoDup_map_filter.
  destruct (falsy_string (ELEVENLABS_API_KEY E)) eqn:Hkey.
  { unfold generateAudioBook, generateAudioBook_task. rewrite Hkey.
    split; intros rs w' H; discriminate. }
  destruct (db_error E (OpFindPages (in_pageIds input)) (db w)) as [m|] eqn:Hf.
  { destruct (generateAudioBook_stops_early E ctx input w m Hkey Hf)
      as [-> ->]. split; intros rs w' H; discriminate. }
  split; intros rs w' Hrun.
  - destruct (generateAudioBook_run E ctx input w Hkey Hf)
      as (rs0 & w0 & Hrun0 & Hids & _).
    rewrite Hrun0 in Hrun. inversion Hrun; subst. now rewrite Hids.
  - destruct (generateAudioBook_task_run E ctx input w Hkey Hf)
      as (rs0 & Hrun0 & Hids).
    rewrite Hrun0 in Hrun. inversion Hrun; subst. now rewrite Hids.
Qed.

Lemma generateAudioBook_answers_a_page_once_witness :
  answered result_pageId
    (fst (generateAudioBook quiet_env alice
            (mkGenerateInput 1 [2; 2; 1; 2] "narrator") report_world))
  = Ok [1; 2] /\
  NoDup [1; 2].
Proof.
  split; [vm_compute; reflexivity|].
  assert (Hkeys : keys_fresh (db report_world)).
  { vm_compute. repeat split;
      repeat (first [apply Forall_nil | apply Forall_cons; [reflexivity|]
                    | apply NoDup_nil
                    | apply NoDup_cons; [cbn; intuition discriminate|]]). }
  destruct (generateAudioBook quiet_env alice
              (mkGenerateInput 1 [2; 2; 1; 2] "narrator") report_world)
    as [[rs|m] w'] eqn:Hrun; [|vm_compute in Hrun; discriminate].
  pose proof (proj1 (generateAudioBook_answers_a_page_once quiet_env alice
                       (mkGenerateInput 1 [2; 2; 1; 2] "narrator")
                       report_world Hkeys) rs w' Hrun) as Hnd.
  vm_compute in Hrun. inversion Hrun; subst rs. exact Hnd.
Defined.

(** X12.  With the key configured and the lookup answered, the task
    revision returns one entry per page found, in order.  An entry with a
    run id means that a task was triggered with the request's document id
    and voice and that page's id and text, and that its run could be
    retrieved; a failure entry carries the message of the trigger or of the
    retrieval for that page.  What a triggered task goes on to do is not
    part of this procedure. *)
Theorem generateAudioBook_task_only_triggers
        (E : Env) (ctx : Ctx) (input : GenerateInput) (w : World) :
  falsy_string (ELEVENLABS_API_KEY E) = false ->
  db_error E (OpFindPages (in_pageIds input)) (db w) = None ->
  exists rs,
    fst (generateAudioBook_task E ctx input w) = Ok rs /\
    Forall2 (trigger_report E input) (pages_found (in_pageIds input) w) rs.
Proof.
  intros Hkey Hfind.
  destruct (trigger_pages_report E input (pages_found (in_pageIds input) w) w)
    as (rs & Hall & Hrep).
  exists rs. split; [|assumption].
  unfold generateAudioBook_task. rewrite Hkey.
  unfold bind at 1, findMany_pages, db_exec. rewrite Hfind.
  unfold set_db. rewrite world_eta.
  fold (pages_found (in_pageIds input) w). unfold bind, ret.
  now rewrite Hall.
Qed.

Lemma generateAudioBook_task_only_triggers_witness :
  let input := mkGenerateInput 9 [3; 1] "narrator" in
  exists rs,
    fst (generateAudioBook_task quiet_env bob input report_world) = Ok rs /\
    Forall2 (trigger_report quiet_env input)
      [mkPage 1 1 1 "one"; mkPage 3 1 3 "three"] rs.
Proof.
  intros input.
  exact (generateAudioBook_task_only_triggers quiet_env bob input
           report_world eq_refl eq_refl).
Defined.

(** X13.  A request for no page at all, with the key configured and the
    lookup answered, is answered with the empty list and changes nothing,
    in both revisions. *)
Theorem generateAudioBook_of_nothing
        (E : Env) (ctx : Ctx) (documentId : Z) (voice : string) (w : World) :
  falsy_string (ELEVENLABS_API_KEY E) = false ->
  db_error E (OpFindPages []) (db w) = None ->
  generateAudioBook E ctx (mkGenerateInput documentId [] voice) w = (Ok [], w) /\
  generateAudioBook_task E ctx (mkGenerateInput documentId [] voice) w
    = (Ok [], w).
Proof.
  intros Hkey Hfind.
  unfold generateAudioBook, generateAudioBook_task. rewrite Hkey.
  unfold bind at 1 3, findMany_pages, db_exec. cbn [in_pageIds].
  rewrite Hfind. unfold set_db. rewrite world_eta.
  fold (pages_found [] w). rewrite pages_found_nothing.
  split; reflexivity.
Qed.

Lemma generateAudioBook_of_nothing_witness :
  generateAudioBook quiet_env alice (mkGenerateInput 1 [] "narrator")
    narrated_world = (Ok [], narrated_world).
Proof.
  exact (proj1 (generateAudioBook_of_nothing quiet_env alice 1 "narrator"
                  narrated_world eq_refl eq_refl)).
Defined.

(** ** Foreign keys, across the router *)

(** X15.  Foreign keys stay in order through [create] and through the
    in-process [generateAudioBook], however they end: a page is only ever
    inserted under a document row that is in the store, and an audio row
    only for a page row that is in the store. *)
Theorem create_and_generate_keep_foreign_keys
        (E : Env) (ctx : Ctx) (w : World) :
  refs_ok (db w) ->
  (forall input, refs_ok (db (snd (create E ctx input w)))) /\
  (forall input, refs_ok (db (snd (generateAudioBook E ctx input w)))).
Proof.
  intros Hrefs. split; intros input.
  - now apply refs_ok_create.
  - now apply refs_ok_generateAudioBook.
Qed.

Lemma create_and_generate_keep_foreign_keys_witness :
  refs_ok
    (db (snd (generateAudioBook (with_speech quiet_env mute_on_two) alice
                (mkGenerateInput 1 [1; 2; 3] "narrator") report_world))).
Proof.
  assert (Hrefs : refs_ok (db report_world)).
  { vm_compute.
    split; repeat (apply Forall_cons; [auto 10|]); apply Forall_nil. }
  exact (proj2 (create_and_generate_keep_foreign_keys
                  (with_speech quiet_env mute_on_two) alice report_world Hrefs)
           (mkGenerateInput 1 [1; 2; 3] "narrator")).
Defined.

Lemma NoDup_app_disjoint {A} (l l' : list A) (x : A) :
  NoDup (l ++ l') -> In x l -> In x l' -> False.
Proof.
  induction l as [|y l IH]; cbn [app]; intros Hnd Hin Hin'; [contradiction|].
  inversion Hnd as [|? ? Hnotin Hrest]; subst.
  destruct Hin as [->|Hin]; [|now apply IH].
  apply Hnotin. apply in_or_app. now right.
Qed.

(** X16.  Create, then delete: in a store that rejects nothing and whose
    keys are in order, deleting the document [create] has just returned
    removes exactly one document row and gives back the three tables as
    they were before the [create]. *)
Theorem create_then_delete_restores_the_tables
        (E : Env) (ctx ctx' : Ctx) (input : CreateInput) (w : World)
        (c : Created) (w1 : World) :
  (forall op l, db_error E op l = None) ->
  keys_fresh (db w) -> refs_ok (db w) ->
  create E ctx input w = (Ok c, w1) ->
  exists w2,
    delete E ctx' (created_documentId c) w1 = (Ok (JsRows 1), w2) /\
    documents (db w2) = documents (db w) /\
    pages (db w2) = pages (db w) /\
    audioFiles (db w2) = audioFiles (db w).
Proof.
  intros Hquiet Hkeys Hrefs Hrun.
  pose proof (keys_fresh_create E ctx input w Hkeys) as Hkeys1.
  rewrite Hrun in Hkeys1. cbn [snd] in Hkeys1.
  destruct Hkeys as (Hdlt & _ & _ & _ & _ & _).
  destruct Hrefs as [Hpref Haref].
  destruct (create_inv E ctx input w _ _ Hrun)
    as [((m & Hm) & _)
       | (response & docs & rp & _ & _ & _ & _ & _ & Hall & Hr)];
    [discriminate|].
  destruct rp as [l|m]; [|discriminate].
  inversion Hr; subst c; clear Hr. cbn [created_documentId new_document doc_id].
  destruct (save_pages_run E _ _ _ _ _ _ Hall)
    as (ps & (Hd & Hp & Ha & _) & Hdoc & _).
  cbn [document_inserted db documents pages audioFiles new_document doc_id]
    in Hd, Hp, Ha, Hdoc.
  set (nd := nextDocumentId (db w)) in *.
  assert (Hold_docs : Forall (fun d => negb (doc_id d =? nd) = true)
                        (documents (db w))).
  { revert Hdlt. apply Forall_impl. intros d Hlt.
    apply negb_true_iff, Z.eqb_neq. lia. }
  assert (Hold_pages : Forall (fun p => negb (page_documentId p =? nd) = true)
                         (pages (db w))).
  { rewrite Forall_forall in *. intros p Hin.
    specialize (Hpref p Hin). apply in_map_iff in Hpref as (d & Hid & Hdin).
    specialize (Hdlt d Hdin). apply negb_true_iff, Z.eqb_neq. lia. }
  assert (Hnew_pages : Forall (fun p => negb (page_documentId p =? nd) = false) ps).
  { revert Hdoc. apply Forall_impl. intros p ->.
    apply negb_false_iff, Z.eqb_refl. }
  rewrite (delete_run E ctx' nd w1 Hquiet). eexists. split.
  - f_equal. f_equal. f_equal. unfold count_removed. rewrite Hd.
    rewrite filter_app, (filter_all _ _ Hold_docs). cbn [filter doc_id].
    rewrite Z.eqb_refl. cbn [negb]. rewrite app_nil_r, length_app.
    cbn [length]. lia.
  - cbn [db after_delete documents pages audioFiles].
    split; [|split].
    + rewrite Hd, filter_app, (filter_all _ _ Hold_docs). cbn [filter doc_id].
      rewrite Z.eqb_refl. cbn [negb]. apply app_nil_r.
    + rewrite Hp, filter_app, (filter_all _ _ Hold_pages),
        (filter_none _ _ Hnew_pages). apply app_nil_r.
    + rewrite Ha. destruct (0 <? length _)%nat; [|reflexivity].
      apply filter_all, Forall_forall. intros a Hin.
      apply negb_true_iff. destruct (inArray _ _) eqn:Harr; [|reflexivity].
      exfalso. apply inArray_In, associated_ids_in in Harr.
      destruct Harr as (p & Hpin & Hpd & Hpid).
      rewrite Forall_forall in Haref. specialize (Haref a Hin).
      rewrite Hp in Hpin. apply in_app_or in Hpin as [Hpin|Hpin].
      * rewrite Forall_forall in Hold_pages. specialize (Hold_pages p Hpin).
        rewrite Hpd, Z.eqb_refl in Hold_pages. discriminate.
      * destruct Hkeys1 as (_ & _ & _ & _ & Hnd & _).
        rewrite Hp, map_app in Hnd.
        apply (NoDup_app_disjoint _ _ (audio_pageId a) Hnd Haref).
        rewrite <- Hpid. now apply in_map.
Qed.

Lemma create_then_delete_restores_the_tables_witness :
  exists c w1 w2,
    create quiet_env bob report narrated_world = (Ok c, w1) /\
    delete quiet_env alice (created_documentId c) w1 = (Ok (JsRows 1), w2) /\
    documents (db w2) = documents (db narrated_world) /\
    pages (db w2) = pages (db narrated_world) /\
    audioFiles (db w2) = audioFiles (db narrated_world).
Proof.
  assert (Hkeys : keys_fresh (db narrated_world)).
  { vm_compute. repeat split;
      repeat (first [apply Forall_nil | apply Forall_cons; [reflexivity|]
                    | apply NoDup_nil
                    | apply NoDup_cons; [cbn; intuition discriminate|]]). }
  assert (Hrefs : refs_ok (db narrated_world)).
  { vm_compute.
    split; repeat (apply Forall_cons; [auto 10|]); apply Forall_nil. }
  destruct (create quiet_env bob report narrated_world) as [[c|m] w1] eqn:Hrun;
    [|vm_compute in Hrun; discriminate].
  destruct (create_then_delete_restores_the_tables quiet_env bob alice report
              narrated_world c w1 (fun _ _ => eq_refl) Hkeys Hrefs Hrun)
    as (w2 & Hdel & Htables).
  exists c, w1, w2. split; [reflexivity|]. split; assumption.
Defined.

(** ** Listing *)

Section ListingFacts.

Variable createdAt : Document -> Z.
Variable list_error : string -> Ledger -> option string.

Lemma insert_desc_perm (d : Document) (ds : list Document) :
  Permutation (insert_desc createdAt d ds) (d :: ds).
Proof.
  induction ds as [|x rest IH]; cbn [insert_desc]; [reflexivity|].
  destruct (createdAt x <=? createdAt d); [reflexivity|].
  rewrite IH. apply perm_swap.
Qed.

Lemma orderBy_perm (ds : list Document) :
  Permutation (orderBy_createdAt_desc createdAt ds) ds.
Proof.
  induction ds as [|d rest IH]; cbn [orderBy_createdAt_desc fold_right];
    [reflexivity|].
  fold (orderBy_createdAt_desc createdAt rest).
  rewrite insert_desc_perm. now constructor.
Qed.

Lemma insert_desc_sorted (d : Document) (ds : list Document) :
  Sorted (newer_or_same createdAt) ds ->
  Sorted (newer_or_same createdAt) (insert_desc createdAt d ds).
Proof.
  induction 1 as [|x rest Hrest IH Hhd]; cbn [insert_desc].
  - repeat constructor.
  - destruct (createdAt x <=? createdAt d) eqn:Hle.
    + apply Z.leb_le in Hle. repeat constructor; assumption.
    + apply Z.leb_gt in Hle. constructor; [assumption|].
      destruct rest as [|y rest']; cbn [insert_desc] in *.
      * constructor. unfold newer_or_same. lia.
      * inversion Hhd; subst.
        destruct (createdAt y <=? createdAt d); constructor;
          unfold newer_or_same in *; [lia | assumption].
Qed.

Lemma orderBy_sorted (ds : list Document) :
  Sorted (newer_or_same createdAt) (orderBy_createdAt_desc createdAt ds).
Proof.
  induction ds as [|d rest IH]; cbn [orderBy_createdAt_desc fold_right];
    [constructor|].
  now apply insert_desc_sorted.
Qed.

Lemma getAll_run (ctx : Ctx) (w : World) :
  list_error (session_user_id ctx) (db w) = None ->
  getAll createdAt list_error ctx w
  = (Ok (map (with_pages (db w))
           (orderBy_createdAt_desc createdAt
              (created_by (session_user_id ctx) (db w)))), w).
Proof. intros H. unfold getAll. now rewrite H. Qed.

Lemma listed_documents (l : Ledger) (ds : list Document) :
  map dwp_document (map (with_pages l) ds) = ds.
Proof.
  rewrite map_map. cbn [with_pages dwp_document]. apply map_id.
Qed.

Lemma listed_pages (l : Ledger) (d : Document) :
  map pwa_page (dwp_pages (with_pages l d))
  = filter (fun p => page_documentId p =? doc_id d) (pages l).
Proof.
  cbn [with_pages dwp_pages]. rewrite map_map.
  cbn [with_audioFiles pwa_page]. apply map_id.
Qed.

End ListingFacts.

(** X17.  [getAll] shows a caller that caller's documents and no others:
    when the query is answered, the documents listed are, up to order,
    exactly the document rows whose creator is the caller, each once; they
    come newest first; each comes with exactly the pages of that document,
    in table order, and each page with exactly the audio rows of that page.
    The first revision lists the same documents and pages without the audio
    files.  Nothing is written. *)
Theorem getAll_lists_the_callers_documents
        (createdAt : Document -> Z)
        (list_error : string -> Ledger -> option string)
        (ctx : Ctx) (w : World) :
  list_error (session_user_id ctx) (db w) = None ->
  exists listing,
    getAll createdAt list_error ctx w = (Ok listing, w) /\
    Permutation (map dwp_document listing)
      (filter (fun d => String.eqb (doc_createdById d) (session_user_id ctx))
         (documents (db w))) /\
    (forall d, In d (map dwp_document listing) <->
               In d (documents (db w)) /\
               doc_createdById d = session_user_id ctx) /\
    Sorted (newer_or_same createdAt) (map dwp_document listing) /\
    Forall (fun e =>
              map pwa_page (dwp_pages e)
              = filter (fun p => page_documentId p =? doc_id (dwp_document e))
                  (pages (db w)) /\
              Forall (fun q =>
                        pwa_audioFiles q
                        = filter (fun a => audio_pageId a =? page_id (pwa_page q))
                            (audioFiles (db w)))
                (dwp_pages e))
      listing /\
    getAll_pages_only createdAt list_error ctx w
    = (Ok (map (fun e => (dwp_document e, map pwa_page (dwp_pages e))) listing),
       w).
Proof.
  intros Hquery. eexists. split; [now apply getAll_run|].
  rewrite listed_documents.
  split; [apply orderBy_perm|]. split; [|split; [apply orderBy_sorted|split]].
  - intros d. rewrite (Permutation_in' (eq_refl d) (orderBy_perm createdAt _)).
    unfold created_by. rewrite filter_In, String.eqb_eq. reflexivity.
  - apply Forall_forall. intros e Hin.
    apply in_map_iff in Hin as (d & <- & _).
    split; [apply listed_pages|].
    apply Forall_forall. intros q Hq. cbn [with_pages dwp_pages] in Hq.
    apply in_map_iff in Hq as (p & <- & _). reflexivity.
  - unfold getAll_pages_only. rewrite Hquery. rewrite map_map.
    f_equal. f_equal. apply map_ext. intros d.
    now rewrite listed_pages.
Qed.

Lemma getAll_lists_the_callers_documents_witness :
  let w := snd (create quiet_env bob report narrated_world) in
  exists listing,
    getAll doc_id (fun _ _ => None) alice w = (Ok listing, w) /\
    (forall d, In d (map dwp_document listing) <->
               In d (documents (db w)) /\ doc_createdById d = "alice").
Proof.
  intros w.
  destruct (getAll_lists_the_callers_documents doc_id (fun _ _ => None) alice w
              eq_refl) as (listing & Hrun & _ & Hown & _).
  exists listing. split; assumption.
Defined.

(** X18.  Once [delete] has succeeded, the document is in nobody's
    listing, while every other document of a caller is still in that
    caller's listing. *)
Theorem deleted_document_is_no_longer_listed
        (createdAt : Document -> Z)
        (list_error : string -> Ledger -> option string)
        (E : Env) (ctx caller : Ctx) (id : Z) (w : World)
        (r : JsResult) (w' : World) :
  delete E ctx id w = (Ok r, w') ->
  list_error (session_user_id caller) (db w') = None ->
  exists listing,
    getAll createdAt list_error caller w' = (Ok listing, w') /\
    Forall (fun e => doc_id (dwp_document e) <> id) listing /\
    (forall d, In d (documents (db w)) ->
               doc_createdById d = session_user_id caller ->
               doc_id d <> id -> In d (map dwp_document listing)).
Proof.
  intros Hdel Hquery.
  assert (Hdocs : documents (db w')
                  = filter (fun d => negb (doc_id d =? id)) (documents (db w))).
  { destruct (audio_step_keeps id (db w)) as (Hd & _).
    destruct (delete_cases E ctx id w)
      as (r0 & l' & Heq & [[_ (m & Hm)] | [[_ (m & Hm)] | [[_ (m & Hm)] | [-> _]]]]);
      rewrite Heq in Hdel; inversion Hdel; subst; try discriminate.
    cbn [with_db db document_deleted pages_deleted documents]. now rewrite Hd. }
  eexists. split; [now apply getAll_run|].
  rewrite listed_documents. split.
  - apply Forall_forall. intros e Hin.
    apply in_map_iff in Hin as (d & <- & Hd). cbn [with_pages dwp_document].
    apply (Permutation_in _ (orderBy_perm createdAt _)) in Hd.
    unfold created_by in Hd. apply filter_In in Hd as [Hd _].
    rewrite Hdocs in Hd. apply filter_In in Hd as [_ Hkeep].
    now apply negb_true_iff, Z.eqb_neq in Hkeep.
  - intros d Hin Hown Hneq.
    apply (Permutation_in _ (Permutation_sym (orderBy_perm createdAt _))).
    unfold created_by. apply filter_In. split; [|now apply String.eqb_eq].
    rewrite Hdocs. apply filter_In. split; [assumption|].
    now apply negb_true_iff, Z.eqb_neq.
Qed.

Lemma deleted_document_is_no_longer_listed_witness :
  let w' := snd (delete quiet_env bob 1 narrated_world) in
  exists listing,
    getAll doc_id (fun _ _ => None) alice w' = (Ok listing, w') /\
    Forall (fun e => doc_id (dwp_document e) <> 1) listing.
Proof.
  intros w'.
  assert (Hdel : delete quiet_env bob 1 narrated_world = (Ok (JsRows 1), w'))
    by (vm_compute; reflexivity).
  destruct (deleted_document_is_no_longer_listed doc_id (fun _ _ => None)
              quiet_env bob alice 1 narrated_world (JsRows 1) w' Hdel eq_refl)
    as (listing & Hrun & Hgone & _).
  exists listing. split; assumption.
Defined.

(** X19.  Once [create] has succeeded in a store whose pages refer to
    issued documents only, the caller's listing contains the new document
    under the id [create] returned, with the name given, and with exactly
    the pages [create] returned. *)
Theorem created_document_is_listed
        (createdAt : Document -> Z)
        (list_error : string -> Ledger -> option string)
        (E : Env) (ctx : Ctx) (input : CreateInput) (w : World)
        (c : Created) (w' : World) :
  create E ctx input w = (Ok c, w') ->
  pages_refer_to_issued_documents w ->
  list_error (session_user_id ctx) (db w') = None ->
  exists listing e,
    getAll createdAt list_error ctx w' = (Ok listing, w') /\
    In e listing /\
    dwp_document e
    = mkDocument (created_documentId c) (in_name input) (session_user_id ctx) /\
    map pwa_page (dwp_pages e) = created_pages c.
Proof.
  intros Hrun Hwf Hquery.
  destruct (create_ok_pages E ctx input w c w' Hrun)
    as (_ & _ & _ & _ & _ & _ & _ & _ & Hpages).
  specialize (Hpages Hwf). unfold pages_of in Hpages.
  assert (Hdoc : In (mkDocument (created_documentId c) (in_name input)
                       (session_user_id ctx)) (documents (db w'))).
  { destruct (create_inv E ctx input w _ _ Hrun)
      as [((m & Hm) & _)
         | (response & docs & rp & _ & _ & _ & _ & _ & Hall & Hr)];
      [discriminate|].
    destruct rp as [l|m]; [|discriminate]. inversion Hr; subst c.
    destruct (save_pages_run E _ _ _ _ _ _ Hall) as (ps & (Hd & _) & _).
    rewrite Hd. apply in_or_app. right. left. reflexivity. }
  eexists. eexists. split; [now apply getAll_run|].
  split; [|split].
  - apply in_map.
    apply (Permutation_in _ (Permutation_sym (orderBy_perm createdAt _))).
    unfold created_by. apply filter_In. split; [exact Hdoc|].
    apply String.eqb_refl.
  - reflexivity.
  - rewrite listed_pages. exact Hpages.
Qed.

Lemma created_document_is_listed_witness :
  exists c w' listing e,
    create quiet_env bob report narrated_world = (Ok c, w') /\
    getAll doc_id (fun _ _ => None) bob w' = (Ok listing, w') /\
    In e listing /\
    dwp_document e = mkDocument (created_documentId c) "Report" "bob" /\
    map pwa_page (dwp_pages e) = created_pages c.
Proof.
  destruct (create quiet_env bob report narrated_world) as [[c|m] w'] eqn:Hrun;
    [|vm_compute in Hrun; discriminate].
  assert (Hwf : pages_refer_to_issued_documents narrated_world).
  { vm_compute. repeat (apply Forall_cons; [reflexivity|]). apply Forall_nil. }
  destruct (created_document_is_listed doc_id (fun _ _ => None) quiet_env bob
              report narrated_world c w' Hrun Hwf eq_refl)
    as (listing & e & Hlist & Hin & Hdoc & Hpages).
  exists c, w', listing, e. repeat split; assumption.
Defined.

(** ** File names *)

Lemma length_append (a b : string) :
  String.length (a ++ b) = (String.length a + String.length b)%nat.
Proof. induction a as [|c a IH]; cbn; [reflexivity | now rewrite IH]. Qed.

Lemma append_cancel_l (s a b : string) : s ++ a = s ++ b -> a = b.
Proof.
  induction s as [|c s IH]; cbn; intros H; [assumption|].
  injection H as H. now apply IH.
Qed.

Lemma append_cancel_r (s : string) :
  forall a b : string, a ++ s = b ++ s -> a = b.
Proof.
  induction a as [|c a IH]; intros [|c' b] H; cbn in H.
  - reflexivity.
  - apply (f_equal String.length) in H. cbn in H.
    rewrite length_append in H. lia.
  - apply (f_equal String.length) in H. cbn in H.
    rewrite length_append in H. lia.
  - injection H as -> H. f_equal. now apply IH.
Qed.

Lemma to_int_proper (n : Z) : Z.to_int n <> Decimal.Pos Decimal.Nil /\
                              Z.to_int n <> Decimal.Neg Decimal.Nil.
Proof.
  destruct n as [|p|p]; cbn; split; try discriminate;
    intros H; injection H as H; now apply DecimalPos.Unsigned.to_uint_nonnil in H.
Qed.

Lemma Number_toString_inj (a b : Z) :
  Number_toString a = Number_toString b -> a = b.
Proof.
  unfold Number_toString. intros H. apply to_int_inj.
  apply (f_equal NilZero.int_of_string) in H.
  destruct (to_int_proper a) as [Ha1 Ha2], (to_int_proper b) as [Hb1 Hb2].
  rewrite !NilZero.isi in H by assumption. now injection H.
Qed.

Lemma audio_fileName_at_inj (page : Page) (t1 t2 : Z) :
  audio_fileName_at page t1 = audio_fileName_at page t2 -> t1 = t2.
Proof.
  unfold audio_fileName_at. intros H.
  do 4 apply append_cancel_l in H.
  apply append_cancel_r in H. now apply Number_toString_inj.
Qed.

(** X20.  Two successful jobs for the same page that read different clock
    values store their audio under different file names, hence under
    different object keys: regenerating a page at a later millisecond never
    overwrites the object of the earlier run. *)
Theorem later_audio_gets_a_new_name
        (E : Env) (input1 input2 : GenerateInput) (page : Page)
        (w1 w2 w1' w2' : World) (a1 a2 : AudioFile) :
  regenerate_page E input1 page w1 = (Ok (Success (page_id page) (Some a1)), w1') ->
  regenerate_page E input2 page w2 = (Ok (Success (page_id page) (Some a2)), w2') ->
  clock w1 <> clock w2 ->
  audio_fileName a1 <> audio_fileName a2 /\
  audio_filePath a1 <> audio_filePath a2.
Proof.
  rewrite !regenerate_page_run. cbv zeta.
  destruct (elevenlabs_generate E (in_voice input1) _) as [c1|]; [|discriminate].
  destruct (upload_error E _ (concat c1)); [discriminate|].
  destruct (db_error E _ (db w1)); [discriminate|].
  destruct (elevenlabs_generate E (in_voice input2) _) as [c2|]; [|discriminate].
  destruct (upload_error E _ (concat c2)); [discriminate|].
  destruct (db_error E _ (db w2)); [discriminate|].
  intros H1 H2 Hclock.
  injection H1 as <- _. injection H2 as <- _.
  cbn [audio_fileName audio_filePath]. split; intros Heq; apply Hclock.
  - now apply (audio_fileName_at_inj page).
  - unfold audio_url in Heq. do 3 apply append_cancel_l in Heq.
    now apply (audio_fileName_at_inj page).
Qed.

Lemma later_audio_gets_a_new_name_witness :
  let input := mkGenerateInput 1 [1] "narrator" in
  let page := mkPage 1 1 1 "one" in
  let a1 := mkAudioFile 1 1 "1-1-1700000000000.mp3"
              "https://fly.storage.tigris.dev/audiobooks/audio/1-1-1700000000000.mp3" in
  let a2 := mkAudioFile 4 1 "1-1-1700000000003.mp3"
              "https://fly.storage.tigris.dev/audiobooks/audio/1-1-1700000000003.mp3" in
  fst (regenerate_page quiet_env input page report_world)
    = Ok (Success 1 (Some a1)) /\
  fst (regenerate_page quiet_env input page narrated_world)
    = Ok (Success 1 (Some a2)) /\
  audio_fileName a1 <> audio_fileName a2.
Proof.
  intros input page a1 a2.
  assert (H1 : regenerate_page quiet_env input page report_world
               = (Ok (Success (page_id page) (Some a1)),
                  snd (regenerate_page quiet_env input page report_world)))
    by (vm_compute; reflexivity).
  assert (H2 : regenerate_page quiet_env input page narrated_world
               = (Ok (Success (page_id page) (Some a2)),
                  snd (regenerate_page quiet_env input page narrated_world)))
    by (vm_compute; reflexivity).
  split; [vm_compute; reflexivity|]. split; [vm_compute; reflexivity|].
  apply (later_audio_gets_a_new_name quiet_env input input page
           report_world narrated_world _ _ a1 a2 H1 H2).
  vm_compute. discriminate.
Defined.
